(** * Discord AI agent: dispatcher, context manager, moderation classifier
      and NLP availability state machine

    Shallow embedding of the bot core of the repository:
    - [server/storage.ts]      (class [MemStorage]),
    - [server/bot/context.ts]  (context manager),
    - [server/bot/moderation.ts],
    - [server/bot/nlp.ts],
    - [server/bot/index.ts]    (the [MessageCreate] handler).

    Asynchronous functions are embedded in a state-and-exception monad over
    the process state; calls that leave the process (Discord gateway, OpenAI)
    are recorded in a trace and their outcome is read from an environment. *)

From Stdlib Require Import ZArith QArith Qround String Ascii List Lia Bool.
From stdpp Require Import base option list strings gmap.

Local Open Scope string_scope.
Local Open Scope list_scope.
Local Open Scope Z_scope.

(** ** JavaScript primitives used by the sources *)

Module JS.

(** [arr.slice(start)]: a negative [start] counts from the end, and the
    resulting index is clamped to [0 .. arr.length]. *)
Definition slice {A : Type} (start : Z) (arr : list A) : list A :=
  let len := Z.of_nat (length arr) in
  let k := if start <? 0 then Z.max (len + start) 0 else Z.min start len in
  drop (Z.to_nat k) arr.

(** Truthiness of a string: only the empty string is falsy. *)
Definition truthy (s : string) : bool :=
  match s with EmptyString => false | String _ _ => true end.

(** [a || b] on strings. *)
Definition or_else (a b : string) : string := if truthy a then a else b.

(** [a || b] on numbers ([0] is falsy; a missing value is read as [0]). *)
Definition or_elseZ (a b : Z) : Z := if a =? 0 then b else a.

(** [s.startsWith(p)]. *)
Fixpoint startsWith (s p : string) : bool :=
  match p, s with
  | EmptyString, _ => true
  | String c p', String d s' => if Ascii.eqb c d then startsWith s' p' else false
  | String _ _, EmptyString => false
  end.

(** [s.includes(p)]. *)
Fixpoint includes (s p : string) : bool :=
  startsWith s p ||
  match s with
  | EmptyString => false
  | String _ s' => includes s' p
  end.

(** [s.toLowerCase()] on the ASCII range (code units above 127 are kept). *)
Definition lower_ascii (c : ascii) : ascii :=
  let n := nat_of_ascii c in
  if ((65 <=? n)%nat && (n <=? 90)%nat)%bool then ascii_of_nat (n + 32) else c.

Fixpoint toLowerCase (s : string) : string :=
  match s with
  | EmptyString => EmptyString
  | String c s' => String (lower_ascii c) (toLowerCase s')
  end.

(** White space removed by [trim] (ASCII range). *)
Definition is_space (c : ascii) : bool :=
  let n := nat_of_ascii c in
  ((n =? 32)%nat || ((9 <=? n)%nat && (n <=? 13)%nat))%bool.

(** [!s.trim()]: the string holds white space only. *)
Fixpoint blank (s : string) : bool :=
  match s with
  | EmptyString => true
  | String c s' => is_space c && blank s'
  end.

(** [arr.join(sep)]. *)
Definition join (sep : string) (arr : list string) : string :=
  String.concat sep arr.

End JS.

(** ** Data model ([shared/schema.ts]) *)

Inductive Role := user | assistant | system.

Definition Role_to_string (r : Role) : string :=
  match r with user => "user" | assistant => "assistant" | system => "system" end.

(** [interface ContextMessage] of [context.ts]; a [Date] is its epoch time. *)
Record ContextMessage := mkContextMessage {
  cm_role : Role;
  cm_content : string;
  cm_timestamp : Z
}.

(** The [jsonb] column [conversations.context]: an array of messages, or any
    other JSON value (the sources test it with [Array.isArray]). *)
Inductive JsonContext :=
| CtxArray (messages : list ContextMessage)
| CtxOther.

Record Conversation := mkConversation {
  conv_id : Z;
  conv_userId : string;
  conv_context : JsonContext;
  conv_active : bool;
  conv_lastUpdated : Z;
  conv_createdAt : Z
}.

Record InsertConversation := mkInsertConversation {
  ins_userId : string;
  ins_context : JsonContext;
  ins_active : bool
}.

(** [BotSettings]. The columns are nullable; every use in the sources goes
    through truthiness ([!x], [x || d], [if (x)]), so [null] is folded into
    the falsy value of the column type ([false], [0], the empty string). *)
Record BotSettings := mkBotSettings {
  contextAwareness : bool;
  autoModeration : bool;
  userTracking : bool;
  debugMode : bool;
  nlpModel : string;
  temperature : string;
  maxTokens : Z;
  contextSize : Z
}.

Record DiscordUser := mkDiscordUser {
  du_id : string;
  du_username : string;
  du_createdAt : Z
}.

Record ModerationAction := mkModerationAction {
  ma_id : Z;
  ma_userId : string;
  ma_type : string;
  ma_reason : string;
  ma_createdAt : Z
}.

Record InsertModerationAction := mkInsertModerationAction {
  ima_userId : string;
  ima_type : string;
  ima_reason : string
}.

(** The part of a discord.js [Message] that the bot reads. *)
Record Message := mkMessage {
  author_id : string;
  author_username : string;
  author_bot : bool;
  content : string;
  mentionsClient : bool;   (* message.mentions.has(client.user.id) *)
  isDMBased : bool;        (* message.channel.isDMBased() *)
  inGuild : bool           (* message.guild && message.member *)
}.

(** ** [class MemStorage] ([server/storage.ts])

    [conversations] is a JavaScript [Map] whose iteration order (insertion
    order) is observed by [getActiveConversationByUserId]; it is kept as the
    list of its values, the key of a value being its [conv_id]. The other
    maps are only read and written by key. *)

Record MemStorage := mkMemStorage {
  discordUsers : gmap string DiscordUser;
  conversations : list Conversation;
  botSettings : option BotSettings;
  moderationActions : gmap Z ModerationAction;
  currentConversationId : Z;
  currentModerationActionId : Z
}.

Module Storage.

(** [new MemStorage()], restricted to the fields above; the constructor
    installs the default settings. *)
Definition defaultSettings : BotSettings :=
  mkBotSettings true true false false "gpt" "0.7" 150 5.

Definition empty : MemStorage :=
  mkMemStorage ∅ [] (Some defaultSettings) ∅ 1 1.

Definition set_conversations (l : list Conversation) (st : MemStorage) : MemStorage :=
  mkMemStorage (discordUsers st) l (botSettings st) (moderationActions st)
               (currentConversationId st) (currentModerationActionId st).

Definition set_botSettings (b : option BotSettings) (st : MemStorage) : MemStorage :=
  mkMemStorage (discordUsers st) (conversations st) b (moderationActions st)
               (currentConversationId st) (currentModerationActionId st).

(** [this.conversations.set(c.id, c)]: an existing key keeps its place. *)
Fixpoint map_set (c : Conversation) (l : list Conversation) : list Conversation :=
  match l with
  | [] => [c]
  | x :: r => if conv_id x =? conv_id c then c :: r else x :: map_set c r
  end.

Definition getBotSettings (st : MemStorage) : option BotSettings := botSettings st.

Definition getDiscordUser (id : string) (st : MemStorage) : option DiscordUser :=
  discordUsers st !! id.

Definition createDiscordUser (id username : string) (now : Z) (st : MemStorage)
  : DiscordUser * MemStorage :=
  let discordUser := mkDiscordUser id username now in
  (discordUser,
   mkMemStorage (<[id := discordUser]> (discordUsers st)) (conversations st)
                (botSettings st) (moderationActions st)
                (currentConversationId st) (currentModerationActionId st)).

Definition getConversation (id : Z) (st : MemStorage) : option Conversation :=
  List.find (fun c => conv_id c =? id) (conversations st).

Definition getActiveConversationByUserId (userId : string) (st : MemStorage)
  : option Conversation :=
  List.find (fun c => String.eqb (conv_userId c) userId && conv_active c)
            (conversations st).

Definition createConversation (ins : InsertConversation) (now : Z) (st : MemStorage)
  : Conversation * MemStorage :=
  let id := currentConversationId st in
  let conversation :=
    mkConversation id (ins_userId ins) (ins_context ins) (ins_active ins) now now in
  (conversation,
   mkMemStorage (discordUsers st) (map_set conversation (conversations st))
                (botSettings st) (moderationActions st)
                (id + 1) (currentModerationActionId st)).

Definition updateConversation (id : Z) (context : JsonContext) (now : Z)
    (st : MemStorage) : option Conversation * MemStorage :=
  match getConversation id st with
  | None => (None, st)
  | Some conversation =>
      let updatedConversation :=
        mkConversation (conv_id conversation) (conv_userId conversation) context
                       (conv_active conversation) now (conv_createdAt conversation) in
      (Some updatedConversation,
       set_conversations (map_set updatedConversation (conversations st)) st)
  end.

Definition closeConversation (id : Z) (now : Z) (st : MemStorage) : bool * MemStorage :=
  match getConversation id st with
  | None => (false, st)
  | Some conversation =>
      let updatedConversation :=
        mkConversation (conv_id conversation) (conv_userId conversation)
                       (conv_context conversation) false now
                       (conv_createdAt conversation) in
      (true, set_conversations (map_set updatedConversation (conversations st)) st)
  end.

Definition createModerationAction (ins : InsertModerationAction) (now : Z)
    (st : MemStorage) : ModerationAction * MemStorage :=
  let id := currentModerationActionId st in
  let action := mkModerationAction id (ima_userId ins) (ima_type ins) (ima_reason ins) now in
  (action,
   mkMemStorage (discordUsers st) (conversations st) (botSettings st)
                (<[id := action]> (moderationActions st))
                (currentConversationId st) (id + 1)).

(** Invariant of the [conversations] map: keys are distinct and were all
    handed out by the [currentConversationId] counter. *)
Definition wf (st : MemStorage) : Prop :=
  NoDup (map conv_id (conversations st)) /\
  Forall (fun c => conv_id c < currentConversationId st) (conversations st).

End Storage.

(** ** Context manager ([server/bot/context.ts])

    Every function reads the clock once; [now] is that reading. *)

Module Context.

Definition DEFAULT_CONTEXT_SIZE : Z := 5.

Definition getContext (userId : string) (now : Z) (st : MemStorage)
  : list ContextMessage * MemStorage :=
  match Storage.getBotSettings st with
  | None => ([], st)
  | Some botSettings =>
      if negb (contextAwareness botSettings) then ([], st)
      else
        let contextSize := JS.or_elseZ (contextSize botSettings) DEFAULT_CONTEXT_SIZE in
        let '(conversation, st1) :=
          match Storage.getActiveConversationByUserId userId st with
          | Some conversation => (conversation, st)
          | None =>
              Storage.createConversation (mkInsertConversation userId (CtxArray []) true) now st
          end in
        (match conv_context conversation with
         | CtxArray context => JS.slice (- contextSize) context
         | CtxOther => []
         end, st1)
  end.

Definition addUserMessage (message : Message) (now : Z) (st : MemStorage) : MemStorage :=
  let userId := author_id message in
  match Storage.getBotSettings st with
  | None => st
  | Some botSettings =>
      if negb (contextAwareness botSettings) then st
      else
        let '(conversation, st1) :=
          match Storage.getActiveConversationByUserId userId st with
          | Some conversation => (conversation, st)
          | None =>
              Storage.createConversation (mkInsertConversation userId (CtxArray []) true) now st
          end in
        let contextMessage := mkContextMessage user (content message) now in
        let updatedContext :=
          match conv_context conversation with
          | CtxArray context => context ++ [contextMessage]
          | CtxOther => [contextMessage]
          end in
        let contextSize := JS.or_elseZ (contextSize botSettings) DEFAULT_CONTEXT_SIZE in
        let updatedContext :=
          if Z.of_nat (length updatedContext) >? contextSize * 2
          then JS.slice (- contextSize * 2) updatedContext
          else updatedContext in
        snd (Storage.updateConversation (conv_id conversation) (CtxArray updatedContext) now st1)
  end.

(** The second component is the line written with [console.error]. *)
Definition addBotMessage (userId content : string) (now : Z) (st : MemStorage)
  : MemStorage * option string :=
  match Storage.getBotSettings st with
  | None => (st, None)
  | Some botSettings =>
      if negb (contextAwareness botSettings) then (st, None)
      else
        match Storage.getActiveConversationByUserId userId st with
        | None =>
            (st, Some ("No active conversation found for user " ++ userId
                       ++ " when adding bot message")%string)
        | Some conversation =>
            let contextMessage := mkContextMessage assistant content now in
            let updatedContext :=
              match conv_context conversation with
              | CtxArray context => context ++ [contextMessage]
              | CtxOther => [contextMessage]
              end in
            let contextSize := JS.or_elseZ (contextSize botSettings) DEFAULT_CONTEXT_SIZE in
            let updatedContext :=
              if Z.of_nat (length updatedContext) >? contextSize * 2
              then JS.slice (- contextSize * 2) updatedContext
              else updatedContext in
            (snd (Storage.updateConversation (conv_id conversation)
                    (CtxArray updatedContext) now st), None)
        end
  end.

Definition closeConversation (userId : string) (now : Z) (st : MemStorage)
  : bool * MemStorage :=
  match Storage.getActiveConversationByUserId userId st with
  | None => (false, st)
  | Some conversation => Storage.closeConversation (conv_id conversation) now st
  end.

Definition SYSTEM_PROMPT : string :=
  "You are a helpful Discord bot assistant. Provide concise, accurate information. If you don't know something, say so rather than making up information.".

Definition formatContextForNLP (context : list ContextMessage) : list (string * string) :=
  ("system", SYSTEM_PROMPT)
    :: map (fun message => (Role_to_string (cm_role message), cm_content message)) context.

Definition updateContext (userId : string) (newContextSize : Z) (now : Z)
    (st : MemStorage) : MemStorage :=
  match Storage.getActiveConversationByUserId userId st with
  | None => st
  | Some conversation =>
      match conv_context conversation with
      | CtxOther => st
      | CtxArray context =>
          if Z.of_nat (length context) >? newContextSize * 2
          then
            let updatedContext := JS.slice (- newContextSize * 2) context in
            snd (Storage.updateConversation (conv_id conversation)
                   (CtxArray updatedContext) now st)
          else st
      end
  end.

(** The stored window of the user's active conversation (empty when there
    is none). *)
Definition window (userId : string) (st : MemStorage) : list ContextMessage :=
  match Storage.getActiveConversationByUserId userId st with
  | Some conversation =>
      match conv_context conversation with
      | CtxArray context => context
      | CtxOther => []
      end
  | None => []
  end.

(** The context size an append works with: the stored setting, or the
    default when the setting is [0] or missing. *)
Definition sizeInEffect (st : MemStorage) : Z :=
  match Storage.getBotSettings st with
  | Some botSettings => JS.or_elseZ (contextSize botSettings) DEFAULT_CONTEXT_SIZE
  | None => DEFAULT_CONTEXT_SIZE
  end.

End Context.

(** ** Process state, outside world and the monad of asynchronous code *)

(** Outcome of an awaited call: a value, or a rejection carrying the text
    that [error.toString()] yields. *)
Inductive Result (A : Type) : Type :=
| Ok (a : A)
| Throw (error : string).
Arguments Ok {A} a.
Arguments Throw {A} error.

(** One category table of the moderation endpoint ([results[i]]); scores are
    the exact values of the doubles received. *)
Record ModerationEntry := mkModerationEntry {
  flagged : bool;
  categories : list (string * bool);
  category_scores : list (string * Q)
}.

(** Calls that leave the process, in the order they are issued. *)
Inductive Event :=
| ModerationsCreate (input : string)
| ChatCompletionsCreate (model : string) (messages : list (string * string))
                        (temperature : string) (max_tokens : Z)
| ChatCompletionsCreateJson (messages : list (string * string))
| Reply (text : string)
| SendTyping
| Delete
| AuthorSend (text : string)
| MemberTimeout (ms : Z) (reason : string)
| MemberKick (reason : string)
| GuildBan (userId reason : string).

(** What the outside world answers. Each field is indexed by the position
    in the trace of the call it answers, so that two calls never share an
    answer.
    - [moderations n]: the [results] array of [openai.moderations.create];
    - [completions n]: [choices[0].message.content] ([null] read as the empty
      string) of [openai.chat.completions.create]; a malformed reply is a
      rejection, as the property access throws inside the same [try];
    - [sentiments n]: the parsed JSON reply [(rating, confidence)] of the
      sentiment request, [None] when the content is empty;
    - [gateway n]: [None] when the Discord call succeeds, the error otherwise;
    - [dateNow n]: the reading of [new Date()] at that point. *)
Record Env := mkEnv {
  moderations : nat -> Result (list ModerationEntry);
  completions : nat -> Result string;
  sentiments : nat -> Result (option (Q * Q));
  gateway : nat -> option string;
  dateNow : nat -> Z
}.

(** Module-level mutable state of the bot process. *)
Record World := mkWorld {
  storage : MemStorage;
  useOpenAI : bool;                  (* nlp.ts: let useOpenAI *)
  isReady : bool;                    (* index.ts: let isReady *)
  hasMessageContentPrivilege : bool; (* client.options.intents.has(MessageContent) *)
  trace : list Event;
  console : list string
}.

Definition M (A : Type) : Type := Env -> World -> Result A * World.

Definition ret {A : Type} (a : A) : M A := fun _ w => (Ok a, w).

Definition bind {A B : Type} (m : M A) (k : A -> M B) : M B :=
  fun env w =>
    match m env w with
    | (Ok a, w1) => k a env w1
    | (Throw e, w1) => (Throw e, w1)
    end.

Declare Scope async_scope.
Delimit Scope async_scope with async.
Notation "'await' x <- m ; k" := (bind m (fun x => k))
  (at level 10, x name, m at level 100, k at level 200, only parsing) : async_scope.
Local Open Scope async_scope.

Definition throw {A : Type} (e : string) : M A := fun _ w => (Throw e, w).

(** [try { m } catch (error) { h error }]. *)
Definition try_catch {A : Type} (m : M A) (h : string -> M A) : M A :=
  fun env w =>
    match m env w with
    | (Ok a, w1) => (Ok a, w1)
    | (Throw e, w1) => h e env w1
    end.

Definition getWorld : M World := fun _ w => (Ok w, w).

Definition set_useOpenAI (b : bool) (w : World) : World :=
  mkWorld (storage w) b (isReady w) (hasMessageContentPrivilege w) (trace w) (console w).

Definition setUseOpenAI (b : bool) : M unit := fun _ w => (Ok tt, set_useOpenAI b w).

Definition set_storage (st : MemStorage) (w : World) : World :=
  mkWorld st (useOpenAI w) (isReady w) (hasMessageContentPrivilege w)
          (trace w) (console w).

(** A [MemStorage] method: it runs in memory and always resolves. *)
Definition onStorage {A : Type} (f : MemStorage -> A * MemStorage) : M A :=
  fun _ w => let '(a, st) := f (storage w) in (Ok a, set_storage st w).

Definition readStorage {A : Type} (f : MemStorage -> A) : M A :=
  fun _ w => (Ok (f (storage w)), w).

Definition newDate : M Z := fun env w => (Ok (dateNow env (length (trace w))), w).

Definition emit (ev : Event) (w : World) : World :=
  mkWorld (storage w) (useOpenAI w) (isReady w) (hasMessageContentPrivilege w)
          (trace w ++ [ev]) (console w).

(** [console.log], [console.warn] and [console.error]: the fixed text of the
    line is kept. *)
Definition say (line : string) (w : World) : World :=
  mkWorld (storage w) (useOpenAI w) (isReady w) (hasMessageContentPrivilege w)
          (trace w) (console w ++ [line]).

Definition consoleLine (line : string) : M unit := fun _ w => (Ok tt, say line w).

(** A call on the Discord gateway. *)
Definition discord (ev : Event) : M unit :=
  fun env w =>
    match gateway env (length (trace w)) with
    | None => (Ok tt, emit ev w)
    | Some e => (Throw e, emit ev w)
    end.

Definition moderationsCreate (input : string) : M (list ModerationEntry) :=
  fun env w => (moderations env (length (trace w)), emit (ModerationsCreate input) w).

Definition chatCompletionsCreate (model : string) (messages : list (string * string))
    (temperature : string) (max_tokens : Z) : M string :=
  fun env w =>
    (completions env (length (trace w)),
     emit (ChatCompletionsCreate model messages temperature max_tokens) w).

Definition chatCompletionsCreateJson (messages : list (string * string))
  : M (option (Q * Q)) :=
  fun env w =>
    (sentiments env (length (trace w)), emit (ChatCompletionsCreateJson messages) w).

(** ** Numbers: [Math.max], [Math.min], [Math.round] and comparisons *)

Module JSNum.

Definition gtb (x y : Q) : bool := negb (Qle_bool x y).
Definition max (x y : Q) : Q := if Qle_bool x y then y else x.
Definition min (x y : Q) : Q := if Qle_bool x y then x else y.

(** [Math.max(...xs)]; [None] stands for [-Infinity], the value for no
    argument. *)
Definition max_of (xs : list Q) : option Q :=
  fold_left (fun acc x => match acc with
                          | None => Some x
                          | Some m => Some (max m x)
                          end) xs None.

(** [m > t] where [m] may be [-Infinity]. *)
Definition exceeds (m : option Q) (t : Q) : bool :=
  match m with
  | None => false
  | Some x => gtb x t
  end.

(** [Math.round]: halves go up. *)
Definition round (x : Q) : Z := Qfloor (x + (1 # 2)).

(** The doubles denoted by the literals [0.9] and [0.7]. *)
Definition lit_0_9 : Q := 8106479329266893 # 9007199254740992.
Definition lit_0_7 : Q := 3152519739159347 # 4503599627370496.

End JSNum.

(** ** Moderation ([server/bot/moderation.ts]) *)

Module Moderation.

(** [ModerationResult['action']]. *)
Inductive Action := none | warn | mute | kick | ban.

Definition Action_to_string (a : Action) : string :=
  match a with
  | none => "none" | warn => "warn" | mute => "mute" | kick => "kick" | ban => "ban"
  end.

Record ModerationResult := mkModerationResult {
  action : Action;
  reason : option string
}.

Definition highSeverityCategories : list string :=
  ["sexual/minors"; "violence/graphic"; "hate/threatening"; "self-harm/intent"].

Definition flaggedCategories (results : ModerationEntry) : list string :=
  map fst (List.filter (fun entry => snd entry) (categories results)).

Definition maxScore (results : ModerationEntry) : option Q :=
  JSNum.max_of (map snd (category_scores results)).

Definition hasHighSeverity (results : ModerationEntry) : bool :=
  existsb (fun category => existsb (String.eqb category) highSeverityCategories)
          (flaggedCategories results).

Definition reasonOf (results : ModerationEntry) : string :=
  ("Message contained inappropriate content: "
     ++ JS.join ", " (flaggedCategories results))%string.

Definition executeModerationAction (message : Message) (action : Action)
    (reason : string) : M unit :=
  match action with
  | none => ret tt
  | _ =>
      await _ <- try_catch (discord Delete)
                   (fun _ => consoleLine "Failed to delete message:");
      try_catch
        (match action with
         | warn =>
             discord (AuthorSend ("⚠️ Warning: Your message was removed. " ++ reason)%string)
         | mute =>
             if inGuild message then
               await _ <- discord (MemberTimeout (10 * 60 * 1000) reason);
               discord (AuthorSend ("🔇 You have been temporarily muted. " ++ reason)%string)
             else ret tt
         | kick =>
             if inGuild message then discord (MemberKick reason) else ret tt
         | ban =>
             if inGuild message then discord (GuildBan (author_id message) reason)
             else ret tt
         | none => ret tt
         end)
        (fun _ => consoleLine ("Failed to execute moderation action ("
                                 ++ Action_to_string action ++ "):")%string)
  end.

Definition moderateMessage (message : Message) : M ModerationResult :=
  try_catch
    (await botSettings <- readStorage Storage.getBotSettings;
     if negb (from_option autoModeration false botSettings) then
       ret (mkModerationResult none None)
     else if JS.blank (content message) then
       ret (mkModerationResult none None)
     else
       await moderationResponse <- moderationsCreate (content message);
       match moderationResponse with
       | [] => throw "TypeError: Cannot read properties of undefined (reading 'flagged')"
       | results :: _ =>
           if flagged results then
             let record (action : Action) : M ModerationResult :=
               let reason := reasonOf results in
               await now <- newDate;
               await _ <- onStorage (Storage.createModerationAction
                            (mkInsertModerationAction (author_id message)
                               (Action_to_string action) reason) now);
               await _ <- executeModerationAction message action reason;
               ret (mkModerationResult action (Some reason)) in
             if hasHighSeverity results || JSNum.exceeds (maxScore results) JSNum.lit_0_9
             then record mute
             else if JSNum.exceeds (maxScore results) JSNum.lit_0_7
             then record warn
             else ret (mkModerationResult none None)
           else ret (mkModerationResult none None)
       end)
    (fun _ =>
       await _ <- consoleLine "Error in message moderation:";
       ret (mkModerationResult none None)).

(** [moderateUser]: manual moderation from the dashboard. *)
Definition moderateUser (userId : string) (action : Action) (reason : string) : M bool :=
  try_catch
    (await now <- newDate;
     await _ <- onStorage (Storage.createModerationAction
                  (mkInsertModerationAction userId (Action_to_string action) reason) now);
     ret true)
    (fun _ =>
       await _ <- consoleLine "Error in manual moderation:";
       ret false).

End Moderation.

(** ** Natural-language replies ([server/bot/nlp.ts]) *)

Module NLP.

Record Sentiment := mkSentiment {
  rating : Z;
  confidence : Q
}.

Definition NO_RESPONSE : string := "I'm sorry, I couldn't generate a response.".

Definition APOLOGY : string :=
  "I'm sorry, I'm having trouble processing your request right now. Please try again later.".

(** The test applied to a caught backend error before leaving live mode. *)
Definition isApiLimit (error : string) : bool :=
  JS.includes error "insufficient_quota" || JS.includes error "rate limit".

Definition getFallbackResponse (prompt : string) : string :=
  let promptLower := JS.toLowerCase prompt in
  if JS.includes promptLower "help" || JS.includes promptLower "command" then
    "I can help you with various tasks! Try commands like 'info', 'weather', 'reminder', or just chat with me naturally."
  else if JS.includes promptLower "hello" || JS.includes promptLower "hi "
          || String.eqb promptLower "hi" then
    "Hello there! I'm your AI assistant bot. How can I help you today?"
  else if JS.includes promptLower "weather" then
    "I'd like to provide weather information, but I'm currently running in offline mode. Please add a valid API key to enable full functionality."
  else if JS.includes promptLower "joke" || JS.includes promptLower "funny" then
    "Why don't scientists trust atoms? Because they make up everything!"
  else if JS.includes promptLower "thank" then
    "You're welcome! Let me know if you need anything else."
  else if JS.includes promptLower "discord" then
    "Discord is a popular communication platform designed for creating communities. Users can communicate via voice calls, video calls, text messaging, and media and files in private chats or as part of communities called 'servers'."
  else if JS.includes promptLower "bot" || JS.includes promptLower "ai" then
    "I'm an AI assistant designed to help with conversations, answer questions, and assist with various tasks on Discord. I'm currently running with limited functionality."
  else
    "I'm currently operating in offline mode with limited functionality. Please provide a valid OpenAI API key with sufficient quota to enable my full AI capabilities.".

Definition positiveWords : list string :=
  ["good"; "great"; "amazing"; "excellent"; "wonderful"; "fantastic"; "awesome";
   "happy"; "joy"; "love"; "like"; "best"; "thank"; "thanks"; "appreciate";
   "perfect"; "brilliant"; "outstanding"].

Definition negativeWords : list string :=
  ["bad"; "terrible"; "awful"; "horrible"; "worst"; "hate"; "dislike"; "sad";
   "angry"; "annoyed"; "disappointed"; "poor"; "fail"; "sucks"; "stupid";
   "useless"; "broken"].

(** [text.split(' ').length]. *)
Fixpoint splitLength (text : string) : Z :=
  match text with
  | EmptyString => 1
  | String c text' =>
      (if Ascii.eqb c " "%char then 1 else 0) + splitLength text'
  end.

(** Arithmetic on confidences is exact here; the source rounds to doubles. *)
Definition getFallbackSentiment (text : string) : Sentiment :=
  let textLower := JS.toLowerCase text in
  let positiveCount :=
    Z.of_nat (length (List.filter (JS.includes textLower) positiveWords)) in
  let negativeCount :=
    Z.of_nat (length (List.filter (JS.includes textLower) negativeWords)) in
  let totalWords := splitLength text in
  let confidenceBase :=
    JSNum.min (7 # 10) (inject_Z (positiveCount + negativeCount) / inject_Z totalWords) in
  if positiveCount >? negativeCount then
    mkSentiment
      (Z.min 5 (3 + JSNum.round (inject_Z (positiveCount - negativeCount) / 2)))
      (confidenceBase + (1 # 10))
  else if negativeCount >? positiveCount then
    mkSentiment
      (Z.max 1 (3 - JSNum.round (inject_Z (negativeCount - positiveCount) / 2)))
      (confidenceBase + (1 # 10))
  else mkSentiment 3 (1 # 2).

Definition processNaturalLanguage (message : Message) : M unit :=
  let userId := author_id message in
  try_catch
    (await now <- newDate;
     await _ <- onStorage (fun st => (tt, Context.addUserMessage message now st));
     await now <- newDate;
     await context <- onStorage (Context.getContext userId now);
     await botSettings <- readStorage Storage.getBotSettings;
     let model := JS.or_else (from_option nlpModel "" botSettings) "gpt-4o" in
     let temperature := JS.or_else (from_option temperature "" botSettings) "0.7" in
     let maxTokens := JS.or_elseZ (from_option maxTokens 0 botSettings) 150 in
     await _ <- try_catch (discord SendTyping) (fun _ => ret tt);
     await w <- getWorld;
     await aiResponse <-
       (if negb (useOpenAI w) then
          await _ <- consoleLine
            "Using fallback response generator for message (OpenAI unavailable)";
          ret (getFallbackResponse (content message))
        else
          let messages := Context.formatContextForNLP context in
          try_catch
            (await completion <-
               chatCompletionsCreate (if String.eqb model "gpt" then "gpt-4o" else model)
                                     messages temperature maxTokens;
             ret (JS.or_else completion NO_RESPONSE))
            (fun error =>
               await _ <- consoleLine "Error calling OpenAI API:";
               await _ <-
                 (if isApiLimit error then
                    await _ <- consoleLine "Switching to fallback mode due to API limits";
                    setUseOpenAI false
                  else ret tt);
               ret (getFallbackResponse (content message))));
     await _ <- discord (Reply aiResponse);
     await now <- newDate;
     await logged <- onStorage (fun st =>
                       let '(st', line) := Context.addBotMessage userId aiResponse now st in
                       (line, st'));
     await _ <- from_option consoleLine (ret tt) logged;
     if from_option debugMode false botSettings then consoleLine "NLP Request:"
     else ret tt)
    (fun _ =>
       await _ <- consoleLine "Error processing natural language:";
       try_catch (discord (Reply APOLOGY))
                 (fun _ => consoleLine "Failed to send error reply:")).

Definition generateResponse (prompt : string) : M string :=
  await w <- getWorld;
  if negb (useOpenAI w) then
    await _ <- consoleLine "Using fallback response generator (OpenAI unavailable)";
    ret (getFallbackResponse prompt)
  else
    try_catch
      (await completion <-
         chatCompletionsCreate "gpt-4o"
           [("system", Context.SYSTEM_PROMPT); ("user", prompt)] "0.7" 150;
       ret (JS.or_else completion NO_RESPONSE))
      (fun error =>
         await _ <- consoleLine "Error generating response:";
         await _ <-
           (if isApiLimit error then
              await _ <- consoleLine "Switching to fallback mode due to API limits";
              setUseOpenAI false
            else ret tt);
         ret (getFallbackResponse prompt)).

Definition SENTIMENT_PROMPT : string :=
  "You are a sentiment analysis expert. Analyze the sentiment of the text and provide a rating from 1 to 5 stars and a confidence score between 0 and 1. Respond with JSON in this format: { 'rating': number, 'confidence': number }".

Definition analyzeSentiment (text : string) : M Sentiment :=
  await w <- getWorld;
  if negb (useOpenAI w) then
    await _ <- consoleLine "Using fallback sentiment analyzer (OpenAI unavailable)";
    ret (getFallbackSentiment text)
  else
    try_catch
      (await response <-
         chatCompletionsCreateJson [("system", SENTIMENT_PROMPT); ("user", text)];
       let result := from_option (fun r => r) (3 # 1, 1 # 2) response in
       ret (mkSentiment
              (Z.max 1 (Z.min 5 (JSNum.round (fst result))))
              (JSNum.max 0 (JSNum.min 1 (snd result)))))
      (fun error =>
         await _ <- consoleLine "Failed to analyze sentiment:";
         await _ <-
           (if isApiLimit error then
              await _ <- consoleLine "Switching to fallback mode due to API limits";
              setUseOpenAI false
            else ret tt);
         ret (getFallbackSentiment text)).

End NLP.

(** ** The [MessageCreate] handler ([server/bot/index.ts]) *)

Section Dispatcher.

(** [handleCommand] of [./commands]: any asynchronous procedure. *)
Variable handleCommand : Message -> string -> M unit.

Definition PREFIX : string := "!".

Definition LIMITED_PERMISSIONS : string :=
  "Hi there! I'm currently running with limited permissions. I can see that you mentioned me, but I can't read message content due to Discord's privacy rules. Please ask your server admin to enable the 'MESSAGE CONTENT INTENT' for me in the Discord Developer Portal.".

Definition REQUEST_ERROR : string :=
  "Sorry, I encountered an error processing your request. Please try again later.".

Definition ensureUserExists (message : Message) : M unit :=
  let userId := author_id message in
  await user <- readStorage (Storage.getDiscordUser userId);
  match user with
  | Some _ => ret tt
  | None =>
      await now <- newDate;
      await _ <- onStorage (Storage.createDiscordUser userId (author_username message) now);
      ret tt
  end.

Definition onMessageCreate (message : Message) : M unit :=
  await w <- getWorld;
  if negb (isReady w) || author_bot message then ret tt
  else
    try_catch
      (await _ <- ensureUserExists message;
       await w <- getWorld;
       if hasMessageContentPrivilege w then
         if JS.startsWith (content message) PREFIX then
           handleCommand message PREFIX
         else
           await botSettings <- readStorage Storage.getBotSettings;
           await moderated <-
             (if from_option autoModeration false botSettings then
                await moderationResult <- Moderation.moderateMessage message;
                ret (JS.truthy (Moderation.Action_to_string
                                  (Moderation.action moderationResult)))
              else ret false);
           if moderated then ret tt
           else
             let isMentioned := mentionsClient message in
             let isDM := isDMBased message in
             if isMentioned || isDM then NLP.processNaturalLanguage message
             else ret tt
       else
         let isMentioned := mentionsClient message in
         let isDM := isDMBased message in
         if isMentioned || isDM then discord (Reply LIMITED_PERMISSIONS)
         else ret tt)
      (fun _ =>
         await _ <- consoleLine "Error processing message:";
         try_catch (discord (Reply REQUEST_ERROR))
                   (fun _ => consoleLine "Failed to send error message:")).

End Dispatcher.

(** ** Operation sequences on the context store *)

(** The mutations of a stored window. *)
Inductive Mutation :=
| AppendUser (message : Message)
| AppendAssistant (userId content : string)
| Resize (userId : string) (newContextSize : Z).

(** What may happen between two of them. [UpdateSettings f] stands for
    [storage.updateBotSettings(patch)]: the spread of [patch] over the stored
    settings is some function [f] of them. *)
Inductive Step :=
| Mutate (m : Mutation)
| UpdateSettings (f : BotSettings -> BotSettings)
| Close (userId : string).

Definition mutate (m : Mutation) (now : Z) (st : MemStorage) : MemStorage :=
  match m with
  | AppendUser message => Context.addUserMessage message now st
  | AppendAssistant userId content => fst (Context.addBotMessage userId content now st)
  | Resize userId newContextSize => Context.updateContext userId newContextSize now st
  end.

Definition step (s : Step) (now : Z) (st : MemStorage) : MemStorage :=
  match s with
  | Mutate m => mutate m now st
  | UpdateSettings f => Storage.set_botSettings (f <$> botSettings st) st
  | Close userId => snd (Context.closeConversation userId now st)
  end.

(** Steps paired with the clock reading of each. *)
Definition run (steps : list (Step * Z)) (st : MemStorage) : MemStorage :=
  fold_left (fun st sn => step (fst sn) (snd sn) st) steps st.

Definition target (m : Mutation) : string :=
  match m with
  | AppendUser message => author_id message
  | AppendAssistant userId _ => userId
  | Resize userId _ => userId
  end.

(** The context size a mutation works with. *)
Definition sizeFor (m : Mutation) (st : MemStorage) : Z :=
  match m with
  | AppendUser _ | AppendAssistant _ _ => Context.sizeInEffect st
  | Resize _ newContextSize => newContextSize
  end.

(** The [n] most recent entries of a window. *)
Definition mostRecent {A : Type} (n : nat) (l : list A) : list A :=
  drop (length l - n)%nat l.

(** The truncation that both appends apply to the extended window. *)
Definition limited (contextSize : Z) (l : list ContextMessage) : list ContextMessage :=
  if Z.of_nat (length l) >? contextSize * 2 then JS.slice (- contextSize * 2) l else l.

(** A stored conversation after [updateConversation]. *)
Definition withContext (c : Conversation) (context : JsonContext) (now : Z) : Conversation :=
  mkConversation (conv_id c) (conv_userId c) context (conv_active c) now (conv_createdAt c).

(** ** The moderation policy in words *)

(** The decision as the code takes it: nothing unless the result is flagged;
    then the largest of all category scores is compared with the thresholds. *)
Definition policy (results : ModerationEntry) : Moderation.Action :=
  if negb (flagged results) then Moderation.none
  else if Moderation.hasHighSeverity results
          || JSNum.exceeds (Moderation.maxScore results) JSNum.lit_0_9
  then Moderation.mute
  else if JSNum.exceeds (Moderation.maxScore results) JSNum.lit_0_7
  then Moderation.warn
  else Moderation.none.

(** The decision as the specification words it: nothing unless some category
    is flagged; then the largest score among the flagged categories is
    compared with the thresholds. *)
Definition claimedMaxScore (results : ModerationEntry) : option Q :=
  JSNum.max_of
    (map snd
       (List.filter
          (fun entry => existsb (String.eqb (fst entry)) (Moderation.flaggedCategories results))
          (category_scores results))).

Definition claimedPolicy (results : ModerationEntry) : Moderation.Action :=
  match Moderation.flaggedCategories results with
  | [] => Moderation.none
  | _ :: _ =>
      if Moderation.hasHighSeverity results
         || JSNum.exceeds (claimedMaxScore results) JSNum.lit_0_9
      then Moderation.mute
      else if JSNum.exceeds (claimedMaxScore results) JSNum.lit_0_7
      then Moderation.warn
      else Moderation.none
  end.

(** Whether [moderateMessage] gets as far as calling the scorer: moderation
    is switched on and the content is not blank. *)
Definition scorerConsulted (message : Message) (w : World) : bool :=
  from_option autoModeration false (botSettings (storage w))
  && negb (JS.blank (content message)).

(** The record that [moderateMessage] writes for a decision. *)
Definition recordFor (message : Message) (action : Moderation.Action)
    (results : ModerationEntry) (id now : Z) : ModerationAction :=
  mkModerationAction id (author_id message) (Moderation.Action_to_string action)
                     (Moderation.reasonOf results) now.

(** The process state right after that record is written: the scorer has
    been called, the record is in the store, no Discord call has been made. *)
Definition afterRecord (message : Message) (action : Moderation.Action)
    (results : ModerationEntry) (env : Env) (w : World) : World :=
  let w0 := emit (ModerationsCreate (content message)) w in
  set_storage
    (snd (Storage.createModerationAction
            (mkInsertModerationAction (author_id message)
               (Moderation.Action_to_string action) (Moderation.reasonOf results))
            (dateNow env (length (trace w0))) (storage w0)))
    w0.

(** ** The phases of [processNaturalLanguage] *)

(** The window read back, and the store, once the user turn is recorded. *)
Definition afterUserTurn (message : Message) (env : Env) (w : World)
  : list ContextMessage * MemStorage :=
  let now := dateNow env (length (trace w)) in
  Context.getContext (author_id message) now
    (Context.addUserMessage message now (storage w)).

(** The request sent to the backend in live mode. *)
Definition requestFor (message : Message) (env : Env) (w : World) : Event :=
  let botSettings := botSettings (snd (afterUserTurn message env w)) in
  let model := JS.or_else (from_option nlpModel "" botSettings) "gpt-4o" in
  ChatCompletionsCreate
    (if String.eqb model "gpt" then "gpt-4o" else model)
    (Context.formatContextForNLP (fst (afterUserTurn message env w)))
    (JS.or_else (from_option temperature "" botSettings) "0.7")
    (JS.or_elseZ (from_option maxTokens 0 botSettings) 150).

(** The text of the reply. The backend request, when there is one, is the
    second call of the run, after the typing indicator. *)
Definition replyText (message : Message) (env : Env) (w : World) : string :=
  if useOpenAI w then
    match completions env (S (length (trace w))) with
    | Ok completion => JS.or_else completion NLP.NO_RESPONSE
    | Throw _ => NLP.getFallbackResponse (content message)
    end
  else NLP.getFallbackResponse (content message).

(** Whether the process is in live mode after the run. *)
Definition staysLive (env : Env) (w : World) : bool :=
  useOpenAI w &&
  match completions env (S (length (trace w))) with
  | Ok _ => true
  | Throw error => negb (NLP.isApiLimit error)
  end.

(** The position of the reply in the trace. *)
Definition replyPosition (w : World) : nat :=
  if useOpenAI w then S (S (length (trace w))) else S (length (trace w)).

(** ** The operations of [nlp.ts] as one family *)

(** [useOpenAI] is local to [nlp.ts]; these are the functions that can
    assign it. *)
Inductive NlpCall :=
| Respond (message : Message)
| Generate (prompt : string)
| Sentiment (text : string).

(** The process state a call leaves behind. *)
Definition after (call : NlpCall) (env : Env) (w : World) : World :=
  match call with
  | Respond message => snd (NLP.processNaturalLanguage message env w)
  | Generate prompt => snd (NLP.generateResponse prompt env w)
  | Sentiment text => snd (NLP.analyzeSentiment text env w)
  end.

(** The error, if any, that the backend answers to the request a call makes
    in live mode ([Respond] sends the typing indicator first). *)
Definition backendFailure (call : NlpCall) (env : Env) (w : World) : option string :=
  match call with
  | Respond _ =>
      match completions env (S (length (trace w))) with Throw e => Some e | Ok _ => None end
  | Generate _ =>
      match completions env (length (trace w)) with Throw e => Some e | Ok _ => None end
  | Sentiment _ =>
      match sentiments env (length (trace w)) with Throw e => Some e | Ok _ => None end
  end.

Definition isBackendCall (ev : Event) : bool :=
  match ev with
  | ChatCompletionsCreate _ _ _ _ | ChatCompletionsCreateJson _ => true
  | _ => false
  end.

(** The number of requests sent to the backend so far. *)
Definition backendCalls (evs : list Event) : nat := length (List.filter isBackendCall evs).

(** The calls issued between two process states. *)
Definition newEvents (w w' : World) : list Event := drop (length (trace w)) (trace w').

(** The same event with another content. *)
Definition withContent (text : string) (message : Message) : Message :=
  mkMessage (author_id message) (author_username message) (author_bot message) text
            (mentionsClient message) (isDMBased message) (inGuild message).

(** ** Sample inputs *)

Module Sample.

(** A direct message "hello" from a human user. *)
Definition hello : Message := mkMessage "u1" "alice" false "hello" false true false.

(** The same store with [contextSize] set to [0] through the settings route. *)
Definition zeroSize : MemStorage :=
  step (UpdateSettings (fun bs =>
          mkBotSettings (contextAwareness bs) (autoModeration bs) (userTracking bs)
                        (debugMode bs) (nlpModel bs) (temperature bs) (maxTokens bs) 0))
       0 Storage.empty.

(** A freshly started process with all privileges. *)
Definition world : World := mkWorld Storage.empty true true true [] [].

(** A guild message that the scorer flags for harassment at 0.6 while it
    scores the unflagged violence category at 0.75. *)
Definition rude : Message := mkMessage "u1" "alice" false "some insult" false false true.

Definition borderline : ModerationEntry :=
  mkModerationEntry true
    [("harassment", true); ("violence", false)]
    [("harassment", 6 # 10); ("violence", 3 # 4)].

(** An outside world where every Discord call succeeds. *)
Definition quiet : Env :=
  mkEnv (fun _ => Ok [borderline]) (fun _ => Ok "Hi!") (fun _ => Ok None)
        (fun _ => None) (fun n => Z.of_nat n).

(** An outside world where every Discord call is rejected. *)
Definition hostile : Env :=
  mkEnv (fun _ => Ok [borderline]) (fun _ => Ok "Hi!") (fun _ => Ok None)
        (fun _ => Some "DiscordAPIError: Missing Permissions") (fun n => Z.of_nat n).

(** An outside world where the backend drops the connection. *)
Definition flaky : Env :=
  mkEnv (fun _ => Ok [borderline]) (fun _ => Throw "Error: connect ECONNRESET")
        (fun _ => Throw "Error: connect ECONNRESET") (fun _ => None) (fun n => Z.of_nat n).

(** An outside world where the backend reports an exhausted quota. *)
Definition exhausted : Env :=
  mkEnv (fun _ => Ok [borderline])
        (fun _ => Throw "Error: 429 You exceeded your current quota (insufficient_quota)")
        (fun _ => Throw "Error: 429 You exceeded your current quota (insufficient_quota)")
        (fun _ => None) (fun n => Z.of_nat n).

(** An outside world where the scorer finds nothing to flag. *)
Definition calm : Env :=
  mkEnv (fun _ => Ok [mkModerationEntry false [("harassment", false)]
                        [("harassment", 1 # 100)]])
        (fun _ => Ok "Hi!") (fun _ => Ok None) (fun _ => None) (fun n => Z.of_nat n).

(** A command handler that does nothing. *)
Definition noCommands : Message -> string -> M unit := fun _ _ => ret tt.

(** The fresh process with auto-moderation switched off. *)
Definition unmoderated : World :=
  mkWorld (step (UpdateSettings (fun bs =>
                   mkBotSettings (contextAwareness bs) false (userTracking bs)
                                 (debugMode bs) (nlpModel bs) (temperature bs)
                                 (maxTokens bs) (contextSize bs)))
                0 Storage.empty)
          true true true [] [].

(** The fresh process on the client without the message-content intent. *)
Definition limited : World := mkWorld Storage.empty true true false [] [].

(** An outside world where the scorer is down. *)
Definition scorerDown : Env :=
  mkEnv (fun _ => Throw "Error: 401 Incorrect API key provided") (fun _ => Ok "Hi!")
        (fun _ => Ok None) (fun _ => None) (fun n => Z.of_nat n).

End Sample.

(** ** Command lines ([server/bot/commands.ts]) *)

Module JSText.

(** [s.slice(n)] for a length [n]. *)
Fixpoint sliceFrom (n : nat) (s : string) : string :=
  match n, s with
  | O, _ => s
  | S n', String _ s' => sliceFrom n' s'
  | S _, EmptyString => EmptyString
  end.

Fixpoint trimStart (s : string) : string :=
  match s with
  | EmptyString => EmptyString
  | String c s' => if JS.is_space c then trimStart s' else s
  end.

Fixpoint trimEnd (s : string) : string :=
  match s with
  | EmptyString => EmptyString
  | String c s' =>
      match trimEnd s' with
      | EmptyString => if JS.is_space c then EmptyString else String c EmptyString
      | t => String c t
      end
  end.

(** [s.trim()] (white space of the ASCII range). *)
Definition trim (s : string) : string := trimEnd (trimStart s).

(** [s.split(/ +/)]: [cur] is the piece being read, [inRun] tells whether the
    last character read was a space. *)
Fixpoint splitRuns (s cur : string) (inRun : bool) : list string :=
  match s with
  | EmptyString => [cur]
  | String c s' =>
      if Ascii.eqb c " "%char then
        if inRun then splitRuns s' cur true else cur :: splitRuns s' EmptyString true
      else splitRuns s' (cur ++ String c EmptyString)%string false
  end.

Definition splitSpaces (s : string) : list string := splitRuns s EmptyString false.

(** No space in a string. *)
Fixpoint spaceFree (s : string) : bool :=
  match s with
  | EmptyString => true
  | String c s' => negb (Ascii.eqb c " "%char) && spaceFree s'
  end.

Definition startsWithSpace (s : string) : bool :=
  match s with
  | EmptyString => false
  | String c _ => Ascii.eqb c " "%char
  end.

Fixpoint endsWithSpace (s : string) : bool :=
  match s with
  | EmptyString => false
  | String c s' =>
      match s' with
      | EmptyString => Ascii.eqb c " "%char
      | String _ _ => endsWithSpace s'
      end
  end.

End JSText.

Section Commands.

(** The registry [commands]: [commands.get(name)], giving the [execute]
    function of the command registered under [name]. *)
Variable commands : string -> option (Message -> list string -> M unit).

Definition COMMAND_ERROR : string :=
  "There was an error executing that command. Please try again later.".

(** The pieces of the command line: [content.slice(prefix.length).trim().split(/ +/)]. *)
Definition commandLine (message : Message) (prefix : string) : list string :=
  JSText.splitSpaces (JSText.trim (JSText.sliceFrom (String.length prefix) (content message))).

Definition handleCommand (message : Message) (prefix : string) : M unit :=
  let args := commandLine message prefix in
  (* args.shift()?.toLowerCase() *)
  let commandName := from_option JS.toLowerCase "" (head args) in
  let args := tail args in
  if negb (JS.truthy commandName) then ret tt
  else
    match commands commandName with
    | None => NLP.processNaturalLanguage message
    | Some execute =>
        try_catch (execute message args)
          (fun _ =>
             await _ <- consoleLine ("Error executing command " ++ commandName ++ ":")%string;
             discord (Reply COMMAND_ERROR))
    end.

End Commands.

(** ** Further invariants of the store *)

(** No user has two active conversations. *)
Definition oneActivePerUser (st : MemStorage) : Prop :=
  NoDup (map conv_userId (List.filter conv_active (conversations st))).

(** Every moderation record was numbered by the counter. *)
Definition actionsNumbered (st : MemStorage) : Prop :=
  forall id r, moderationActions st !! id = Some r -> id < currentModerationActionId st.

(** The ways in which the context manager changes the store on behalf of a
    user: not at all, by rewriting the user's active conversation, by creating
    one when the user has none, or by several of these in a row. *)
Inductive touched (u : string) (now : Z) : MemStorage -> MemStorage -> Prop :=
| touched_none st : touched u now st st
| touched_update st c context :
    Storage.getActiveConversationByUserId u st = Some c ->
    touched u now st (snd (Storage.updateConversation (conv_id c) context now st))
| touched_create st :
    Storage.getActiveConversationByUserId u st = None ->
    touched u now st
      (snd (Storage.createConversation (mkInsertConversation u (CtxArray []) true) now st))
| touched_trans st1 st2 st3 :
    touched u now st1 st2 -> touched u now st2 st3 -> touched u now st1 st3.

(** The user on whose behalf a step works, if any. *)
Definition stepUser (s : Step) : option string :=
  match s with
  | Mutate m => Some (target m)
  | UpdateSettings _ => None
  | Close userId => Some userId
  end.

(** ** More sample inputs *)

Module Scenario.

(** A second user, mentioning the bot in a guild channel. *)
Definition bob : Message := mkMessage "u2" "bob" false "hi there" true false true.

(** A first exchange with the first user, closed afterwards. *)
Definition firstChat : list (Step * Z) :=
  [(Mutate (AppendUser Sample.hello), 1);
   (Mutate (AppendAssistant "u1" "Hello there!"), 2);
   (Close "u1", 3)].

(** Both users write after that. *)
Definition secondChat : list (Step * Z) :=
  [(Mutate (AppendUser Sample.hello), 4); (Mutate (AppendUser bob), 5)].

(** The first conversation once closed. *)
Definition closedChat : Conversation :=
  mkConversation 1 "u1"
    (CtxArray [mkContextMessage user "hello" 1; mkContextMessage assistant "Hello there!" 2])
    false 3 1.

(** Settings with a context size of 1, and a store holding one exchange
    under them. *)
Definition sizeOne : BotSettings := mkBotSettings true true false false "gpt" "0.7" 150 1.

Definition smallWindow : MemStorage :=
  run [(UpdateSettings (fun _ => sizeOne), 0);
       (Mutate (AppendUser Sample.hello), 1);
       (Mutate (AppendAssistant "u1" "Hello there!"), 2)]
      Storage.empty.

(** A registry with a help command that replies and a command that fails. *)
Definition registry : string -> option (Message -> list string -> M unit) :=
  fun name =>
    if String.eqb name "help" then Some (fun _ _ => discord (Reply "Available Commands"))
    else if String.eqb name "boom" then Some (fun _ _ => throw "Error: boom")
    else None.

(** Guild messages without mention: an unknown command and a failing one. *)
Definition dance : Message := mkMessage "u2" "bob" false "!dance   now" false false true.
Definition boom : Message := mkMessage "u2" "bob" false "!BOOM" false false true.

(** A fresh process with context awareness and auto-moderation off. *)
Definition unaware : World :=
  mkWorld (Storage.set_botSettings
             (Some (mkBotSettings false false false false "gpt" "0.7" 150 5))
             Storage.empty)
          true true true [] [].

End Scenario.

(** ** Reading the trace and the sentiment word lists *)

Definition isReply (ev : Event) : bool :=
  match ev with Reply _ => true | _ => false end.

(** The number of words of a list that occur in the lower-cased text. *)
Definition keywordHits (words : list string) (text : string) : Z :=
  Z.of_nat (length (List.filter (JS.includes (JS.toLowerCase text)) words)).

(** ** The Discord calls of a moderation action *)

(** The calls that [executeModerationAction] makes when the trace holds [n]
    calls already: the delete comes first, and what follows does not depend on
    the outcome of the delete ([gateway env n]). *)
Definition moderationEffects (message : Message) (action : Moderation.Action)
    (reason : string) (env : Env) (n : nat) : list Event :=
  match action with
  | Moderation.none => []
  | Moderation.warn =>
      [Delete; AuthorSend ("⚠️ Warning: Your message was removed. " ++ reason)%string]
  | Moderation.mute =>
      Delete ::
      (if inGuild message then
         MemberTimeout 600000 reason ::
         match gateway env (S n) with
         | None => [AuthorSend ("🔇 You have been temporarily muted. " ++ reason)%string]
         | Some _ => []
         end
       else [])
  | Moderation.kick =>
      Delete :: (if inGuild message then [MemberKick reason] else [])
  | Moderation.ban =>
      Delete :: (if inGuild message then [GuildBan (author_id message) reason] else [])
  end.

Definition isScorerCall (ev : Event) : bool :=
  match ev with ModerationsCreate _ => true | _ => false end.

(** Calls that remove a member from the guild. *)
Definition isRemoval (ev : Event) : bool :=
  match ev with MemberKick _ | GuildBan _ _ => true | _ => false end.

(** What a mutation adds to the window of its target when it takes effect. *)
Definition appended (m : Mutation) (now : Z) : list ContextMessage :=
  match m with
  | AppendUser message => [mkContextMessage user (content message) now]
  | AppendAssistant _ content => [mkContextMessage assistant content now]
  | Resize _ _ => []
  end.

(** ** Proof automation *)

(** Symbolic execution of a run: normalise positions in the trace, then
    split on the next answer of the outside world. *)
Ltac positions :=
  cbn [trace storage useOpenAI isReady hasMessageContentPrivilege console
       emit say set_storage set_useOpenAI fst snd negb andb];
  repeat rewrite length_app; cbn [length Nat.add];
  repeat rewrite Nat.add_1_r.

Ltac answer :=
  positions;
  match goal with
  | H : gateway ?e ?n = _ |- context [match gateway ?e ?n with _ => _ end] => rewrite H
  | H : completions ?e ?n = _ |- context [match completions ?e ?n with _ => _ end] =>
      rewrite H
  | H : sentiments ?e ?n = _ |- context [match sentiments ?e ?n with _ => _ end] =>
      rewrite H
  | |- context [match gateway ?e ?n with _ => _ end] => destruct (gateway e n) eqn:?
  | |- context [match completions ?e ?n with _ => _ end] => destruct (completions e n) eqn:?
  | |- context [match sentiments ?e ?n with _ => _ end] => destruct (sentiments e n) eqn:?
  | |- context [if useOpenAI ?w then _ else _] => destruct (useOpenAI w) eqn:?
  | |- context [if NLP.isApiLimit ?e then _ else _] => destruct (NLP.isApiLimit e) eqn:?
  | |- context [let '(_, _) := Context.addBotMessage ?u ?t ?n ?st in _] =>
      destruct (Context.addBotMessage u t n st) as [? [?|]] eqn:?
  | |- context [if from_option debugMode false ?o then _ else _] =>
      destruct (from_option debugMode false o)
  end.

Ltac settle :=
  positions; eexists; split; [reflexivity|]; positions;
  repeat split; rewrite <- ?app_assoc;
  first [reflexivity | congruence | symmetry; apply app_nil_r].

(** * Verification *)

(** ** The [conversations] map *)

Section ConversationsMap.

Implicit Types (l : list Conversation) (c : Conversation).

Lemma find_conv_id l c :
  NoDup (map conv_id l) -> In c l ->
  List.find (fun x => conv_id x =? conv_id c) l = Some c.
Proof.
  induction l as [|x r IH]; simpl; intros Hnd Hin; [contradiction|].
  apply NoDup_cons in Hnd as [Hx Hr].
  destruct Hin as [->|Hin].
  - now rewrite Z.eqb_refl.
  - destruct (Z.eqb_spec (conv_id x) (conv_id c)) as [E|_]; [|auto].
    exfalso. apply Hx. rewrite E. apply list_elem_of_In, in_map, Hin.
Qed.

Lemma find_none_app (P : Conversation -> bool) l l' :
  List.find P l = None -> List.find P (l ++ l') = List.find P l'.
Proof.
  induction l as [|x r IH]; simpl; [reflexivity|].
  destruct (P x); [discriminate|exact IH].
Qed.

Lemma map_set_fresh l c :
  Forall (fun x => conv_id x < conv_id c) l -> Storage.map_set c l = l ++ [c].
Proof.
  induction 1 as [|x r Hx _ IH]; simpl; [reflexivity|].
  destruct (Z.eqb_spec (conv_id x) (conv_id c)); [lia|now rewrite IH].
Qed.

Lemma map_set_ids l c :
  In (conv_id c) (map conv_id l) ->
  map conv_id (Storage.map_set c l) = map conv_id l.
Proof.
  induction l as [|x r IH]; simpl; [contradiction|].
  destruct (Z.eqb_spec (conv_id x) (conv_id c)) as [E|N]; simpl.
  - now rewrite E.
  - intros [E|Hin]; [contradiction|]. now rewrite IH.
Qed.

Lemma map_set_Forall (P : Conversation -> Prop) l c :
  P c -> Forall P l -> Forall P (Storage.map_set c l).
Proof.
  intros Hc. induction 1 as [|x r Hx Hr IH]; simpl.
  - now constructor.
  - destruct (conv_id x =? conv_id c); constructor; auto.
Qed.

(** Replacing the value that [find] returns by one that still satisfies the
    test makes [find] return the new value. *)
Lemma find_map_set (P : Conversation -> bool) l c c' :
  NoDup (map conv_id l) ->
  List.find P l = Some c -> conv_id c' = conv_id c -> P c' = true ->
  List.find P (Storage.map_set c' l) = Some c'.
Proof.
  intros Hnd Hfind Hid HP. revert Hnd Hfind.
  induction l as [|x r IH]; simpl; [discriminate|].
  intros Hnd Hfind. apply NoDup_cons in Hnd as [Hx Hr].
  destruct (P x) eqn:Px.
  - injection Hfind as ->. rewrite Hid, Z.eqb_refl. simpl. now rewrite HP.
  - destruct (Z.eqb_spec (conv_id x) (conv_id c')) as [E|_]; simpl.
    + exfalso. apply Hx. rewrite E, Hid.
      apply list_elem_of_In, in_map. eapply find_some, Hfind.
    + rewrite Px. auto.
Qed.

End ConversationsMap.

(** ** [MemStorage]: the invariant and the conversation methods *)

Section StorageFacts.

Implicit Types (st : MemStorage) (c : Conversation) (u : string).

Lemma wf_empty : Storage.wf Storage.empty.
Proof. split; simpl; constructor. Qed.

Lemma active_spec u st c :
  Storage.getActiveConversationByUserId u st = Some c ->
  In c (conversations st) /\ conv_userId c = u /\ conv_active c = true.
Proof.
  intros H. apply find_some in H as [Hin Hp].
  apply andb_true_iff in Hp as [Hu Ha]. apply String.eqb_eq in Hu. auto.
Qed.

Lemma wf_map_set st c :
  Storage.wf st -> In (conv_id c) (map conv_id (conversations st)) ->
  Storage.wf (Storage.set_conversations (Storage.map_set c (conversations st)) st).
Proof.
  intros [Hnd Hlt] Hin. split; simpl.
  - now rewrite map_set_ids.
  - apply map_set_Forall; [|assumption].
    apply in_map_iff in Hin as (x & <- & Hx).
    rewrite Forall_forall in Hlt. apply Hlt. now apply list_elem_of_In.
Qed.

Lemma updateConversation_active u st c context now :
  Storage.wf st ->
  Storage.getActiveConversationByUserId u st = Some c ->
  let st' := snd (Storage.updateConversation (conv_id c) context now st) in
  Storage.wf st' /\
  Storage.getActiveConversationByUserId u st' = Some (withContext c context now) /\
  botSettings st' = botSettings st.
Proof.
  intros Hwf Hact. pose proof (active_spec _ _ _ Hact) as (Hin & Hu & Ha).
  unfold Storage.updateConversation, Storage.getConversation.
  rewrite (find_conv_id _ _ (proj1 Hwf) Hin). simpl. split; [|split]; [| |reflexivity].
  - apply wf_map_set; [assumption|]. simpl. now apply in_map.
  - unfold Storage.getActiveConversationByUserId. simpl.
    apply find_map_set with (c := c); [apply Hwf|exact Hact|reflexivity|].
    simpl. rewrite Ha, Hu, String.eqb_refl. reflexivity.
Qed.

Lemma createConversation_active u st now :
  Storage.wf st ->
  Storage.getActiveConversationByUserId u st = None ->
  let r := Storage.createConversation (mkInsertConversation u (CtxArray []) true) now st in
  Storage.wf (snd r) /\
  Storage.getActiveConversationByUserId u (snd r) = Some (fst r) /\
  conv_context (fst r) = CtxArray [] /\
  botSettings (snd r) = botSettings st.
Proof.
  intros [Hnd Hlt] Hnone. unfold Storage.createConversation. simpl.
  rewrite map_set_fresh by exact Hlt.
  split; [split; simpl|split; [|split; reflexivity]].
  - rewrite map_app. simpl. apply NoDup_app. split; [assumption|]. split.
    + intros x Hx [E|[]]%list_elem_of_In. subst x.
      apply list_elem_of_In, in_map_iff in Hx as (y & Hy & Hin).
      rewrite Forall_forall in Hlt. apply list_elem_of_In, Hlt in Hin. lia.
    + apply NoDup_singleton.
  - apply Forall_app. split.
    + eapply Forall_impl; [exact Hlt|]. simpl. intros. lia.
    + repeat constructor. simpl. lia.
  - unfold Storage.getActiveConversationByUserId in *. simpl.
    rewrite find_none_app by exact Hnone. simpl. now rewrite String.eqb_refl.
Qed.

Lemma closeConversation_wf st id now :
  Storage.wf st -> Storage.wf (snd (Storage.closeConversation id now st)).
Proof.
  intros Hwf. unfold Storage.closeConversation, Storage.getConversation.
  destruct (List.find _ _) as [c|] eqn:Hf; simpl; [|assumption].
  apply find_some in Hf as [Hin _].
  apply wf_map_set; [assumption|]. simpl. now apply in_map.
Qed.

End StorageFacts.

(** ** Context manager: what each mutation stores *)

Section ContextFacts.

Implicit Types (st : MemStorage) (u : string) (l : list ContextMessage).

Lemma limited_mostRecent cs l :
  1 <= cs -> limited cs l = mostRecent (Z.to_nat (2 * cs)) l.
Proof.
  intros Hcs. unfold limited, mostRecent, JS.slice.
  destruct (Z.gtb_spec (Z.of_nat (length l)) (cs * 2)) as [Hgt|Hle].
  - destruct (Z.ltb_spec (- cs * 2) 0); [|lia]. f_equal. lia.
  - replace (length l - Z.to_nat (2 * cs))%nat with 0%nat by lia. reflexivity.
Qed.

Lemma mostRecent_length {A : Type} (n : nat) (k : list A) :
  (length (mostRecent n k) <= n)%nat.
Proof. unfold mostRecent. rewrite length_drop. lia. Qed.

Lemma limited_length cs l :
  1 <= cs -> Z.of_nat (length (limited cs l)) <= 2 * cs.
Proof.
  intros Hcs. rewrite limited_mostRecent by assumption.
  pose proof (mostRecent_length (Z.to_nat (2 * cs)) l). lia.
Qed.

Lemma window_active u st c :
  Storage.getActiveConversationByUserId u st = Some c ->
  Context.window u st =
    match conv_context c with CtxArray context => context | CtxOther => [] end.
Proof. intros H. unfold Context.window. now rewrite H. Qed.

Lemma window_inactive u st :
  Storage.getActiveConversationByUserId u st = None -> Context.window u st = [].
Proof. intros H. unfold Context.window. now rewrite H. Qed.

Lemma sizeInEffect_settings st bs :
  botSettings st = Some bs ->
  Context.sizeInEffect st = JS.or_elseZ (contextSize bs) Context.DEFAULT_CONTEXT_SIZE.
Proof. intros H. unfold Context.sizeInEffect, Storage.getBotSettings. now rewrite H. Qed.

(** With context awareness on, [addUserMessage] leaves the user with an
    active conversation whose window is the old one, extended by the user
    turn and truncated. *)
Lemma addUserMessage_spec message now st bs :
  Storage.wf st -> botSettings st = Some bs -> contextAwareness bs = true ->
  let u := author_id message in
  let st' := Context.addUserMessage message now st in
  Storage.wf st' /\
  botSettings st' = botSettings st /\
  exists c,
    Storage.getActiveConversationByUserId u st' = Some c /\
    conv_context c =
      CtxArray (limited (Context.sizeInEffect st)
                  (Context.window u st ++ [mkContextMessage user (content message) now])).
Proof.
  intros Hwf Hbs Hca. cbv zeta.
  rewrite (sizeInEffect_settings _ _ Hbs).
  unfold Context.addUserMessage, Storage.getBotSettings. rewrite Hbs, Hca. simpl negb. cbv iota.
  destruct (Storage.getActiveConversationByUserId (author_id message) st) as [c|] eqn:Hact.
  - rewrite (window_active _ _ _ Hact).
    match goal with
    | |- context [Storage.updateConversation _ ?ctx _ _] =>
        destruct (updateConversation_active _ _ _ ctx now Hwf Hact) as (W & A & B)
    end.
    split; [exact W|]. split; [congruence|]. eexists. split; [exact A|].
    simpl. unfold limited. now destruct (conv_context c).
  - rewrite (window_inactive _ _ Hact).
    destruct (createConversation_active _ _ now Hwf Hact) as (W1 & A1 & C1 & B1).
    destruct (Storage.createConversation _ now st) as [c st1]. simpl in W1, A1, C1, B1.
    match goal with
    | |- context [Storage.updateConversation _ ?ctx _ _] =>
        destruct (updateConversation_active _ _ _ ctx now W1 A1) as (W & A & B)
    end.
    split; [exact W|]. split; [congruence|]. eexists. split; [exact A|].
    simpl. unfold limited. now rewrite C1.
Qed.

(** [addBotMessage] appends to an existing active conversation only. *)
Lemma addBotMessage_active u content now st bs c :
  Storage.wf st -> botSettings st = Some bs -> contextAwareness bs = true ->
  Storage.getActiveConversationByUserId u st = Some c ->
  let r := Context.addBotMessage u content now st in
  Storage.wf (fst r) /\
  botSettings (fst r) = botSettings st /\
  snd r = None /\
  Storage.getActiveConversationByUserId u (fst r) =
    Some (withContext c
            (CtxArray (limited (Context.sizeInEffect st)
                         (Context.window u st ++ [mkContextMessage assistant content now])))
            now).
Proof.
  intros Hwf Hbs Hca Hact. cbv zeta.
  rewrite (sizeInEffect_settings _ _ Hbs), (window_active _ _ _ Hact).
  unfold Context.addBotMessage, Storage.getBotSettings. rewrite Hbs, Hca, Hact. simpl negb. cbv iota.
  match goal with
  | |- context [Storage.updateConversation _ ?ctx _ _] =>
      destruct (updateConversation_active _ _ _ ctx now Hwf Hact) as (W & A & B)
  end.
  simpl fst. simpl snd. split; [exact W|]. split; [congruence|]. split; [reflexivity|].
  rewrite A. unfold limited. now destruct (conv_context c).
Qed.

Lemma addBotMessage_inactive u content now st bs :
  botSettings st = Some bs -> contextAwareness bs = true ->
  Storage.getActiveConversationByUserId u st = None ->
  Context.addBotMessage u content now st =
    (st, Some ("No active conversation found for user " ++ u
                 ++ " when adding bot message")%string).
Proof.
  intros Hbs Hca Hact.
  unfold Context.addBotMessage, Storage.getBotSettings. now rewrite Hbs, Hca, Hact.
Qed.

Lemma mostRecent_snoc {A : Type} (n : nat) (k : list A) (x : A) :
  (1 <= n)%nat -> mostRecent n (k ++ [x]) = mostRecent (n - 1) k ++ [x].
Proof.
  intros Hn. unfold mostRecent. rewrite length_app. simpl.
  rewrite drop_app_le by lia. f_equal. f_equal. lia.
Qed.

(** [getContext] leaves the store alone when the user has an active
    conversation. *)
Lemma getContext_store u now st c :
  Storage.getActiveConversationByUserId u st = Some c ->
  snd (Context.getContext u now st) = st.
Proof.
  intros Hact. unfold Context.getContext.
  destruct (Storage.getBotSettings st) as [bs|]; [|reflexivity].
  destruct (negb (contextAwareness bs)); [reflexivity|]. now rewrite Hact.
Qed.

Lemma limited_nil n : limited n [] = [].
Proof. unfold limited, JS.slice. destruct (Z.of_nat _ >? _); [apply drop_nil|reflexivity]. Qed.

(** [updateContext] truncates the stored window like the appends do. *)
Lemma updateContext_spec u n now st :
  Storage.wf st ->
  let st' := Context.updateContext u n now st in
  Storage.wf st' /\
  botSettings st' = botSettings st /\
  Context.window u st' = limited n (Context.window u st).
Proof.
  intros Hwf. cbv zeta. unfold Context.updateContext.
  destruct (Storage.getActiveConversationByUserId u st) as [c|] eqn:Hact.
  2:{ rewrite (window_inactive _ _ Hact), limited_nil. auto. }
  rewrite (window_active _ _ _ Hact).
  destruct (conv_context c) as [context|] eqn:Hctx.
  2:{ rewrite (window_active _ _ _ Hact), Hctx, limited_nil. auto. }
  unfold limited.
  destruct (Z.of_nat (length context) >? n * 2).
  - match goal with
    | |- context [Storage.updateConversation _ ?ctx _ _] =>
        destruct (updateConversation_active _ _ _ ctx now Hwf Hact) as (W & A & B)
    end.
    split; [exact W|]. split; [exact B|]. now rewrite (window_active _ _ _ A).
  - rewrite (window_active _ _ _ Hact), Hctx. auto.
Qed.

End ContextFacts.

(** ** Sequences of context operations keep the store well formed *)

Section Sequences.

Lemma mutate_wf m now st : Storage.wf st -> Storage.wf (mutate m now st).
Proof.
  intros Hwf. destruct m as [message|u text|u n]; simpl.
  - destruct (botSettings st) as [bs|] eqn:Hbs.
    + destruct (contextAwareness bs) eqn:Hca.
      * apply (addUserMessage_spec message now st bs Hwf Hbs Hca).
      * unfold Context.addUserMessage, Storage.getBotSettings. now rewrite Hbs, Hca.
    + unfold Context.addUserMessage, Storage.getBotSettings. now rewrite Hbs.
  - destruct (botSettings st) as [bs|] eqn:Hbs.
    + destruct (contextAwareness bs) eqn:Hca.
      * destruct (Storage.getActiveConversationByUserId u st) as [c|] eqn:Hact.
        -- apply (addBotMessage_active u text now st bs c Hwf Hbs Hca Hact).
        -- now rewrite (addBotMessage_inactive u text now st bs Hbs Hca Hact).
      * unfold Context.addBotMessage, Storage.getBotSettings. now rewrite Hbs, Hca.
    + unfold Context.addBotMessage, Storage.getBotSettings. now rewrite Hbs.
  - apply (updateContext_spec u n now st Hwf).
Qed.

Lemma step_wf s now st : Storage.wf st -> Storage.wf (step s now st).
Proof.
  intros Hwf. destruct s as [m|f|u]; simpl.
  - now apply mutate_wf.
  - exact Hwf.
  - unfold Context.closeConversation.
    destruct (Storage.getActiveConversationByUserId u st); [|exact Hwf].
    now apply closeConversation_wf.
Qed.

Lemma run_wf steps st : Storage.wf st -> Storage.wf (run steps st).
Proof.
  revert st. induction steps as [|[s now] steps IH]; intros st Hwf; simpl.
  - exact Hwf.
  - apply IH. now apply step_wf.
Qed.

(** A mutation either leaves the store as it was or leaves the target's
    window truncated for the size it works with. *)
Lemma mutate_unchanged_or_limited m now st :
  Storage.wf st ->
  mutate m now st = st \/
  exists l, Context.window (target m) (mutate m now st) = limited (sizeFor m st) l.
Proof.
  intros Hwf. destruct m as [message|u text|u n]; simpl.
  - destruct (botSettings st) as [bs|] eqn:Hbs.
    + destruct (contextAwareness bs) eqn:Hca.
      * right.
        destruct (addUserMessage_spec message now st bs Hwf Hbs Hca) as (_ & _ & c & A & C).
        eexists. now rewrite (window_active _ _ _ A), C.
      * left. unfold Context.addUserMessage, Storage.getBotSettings. now rewrite Hbs, Hca.
    + left. unfold Context.addUserMessage, Storage.getBotSettings. now rewrite Hbs.
  - destruct (botSettings st) as [bs|] eqn:Hbs.
    + destruct (contextAwareness bs) eqn:Hca.
      * destruct (Storage.getActiveConversationByUserId u st) as [c|] eqn:Hact.
        -- right.
           destruct (addBotMessage_active u text now st bs c Hwf Hbs Hca Hact)
             as (_ & _ & _ & A).
           eexists. now rewrite (window_active _ _ _ A).
        -- left. now rewrite (addBotMessage_inactive u text now st bs Hbs Hca Hact).
      * left. unfold Context.addBotMessage, Storage.getBotSettings. now rewrite Hbs, Hca.
    + left. unfold Context.addBotMessage, Storage.getBotSettings. now rewrite Hbs.
  - right. eexists. apply (updateContext_spec u n now st Hwf).
Qed.

End Sequences.

(** * Properties stated by the specification *)

(** ** Context manager *)

(** C2 (as amended). For every store reached by any sequence of appends,
    resizes, settings updates and closes, a mutation that works with a context
    size of at least 1 (for an append the stored [contextSize], or 5 when that
    is 0 or missing; for a resize the new size) and changes the store leaves
    the target user's window with at most twice that many messages. *)
Theorem C2_window_bounded_for_positive_size
    (st0 : MemStorage) (steps : list (Step * Z)) (m : Mutation) (now : Z) :
  Storage.wf st0 ->
  let st1 := run steps st0 in
  let st2 := mutate m now st1 in
  1 <= sizeFor m st1 ->
  st2 <> st1 ->
  Z.of_nat (length (Context.window (target m) st2)) <= 2 * sizeFor m st1.
Proof.
  intros Hwf st1 st2 Hsize Hchanged.
  destruct (mutate_unchanged_or_limited m now st1 (run_wf steps st0 Hwf)) as [E|[l E]].
  - contradiction.
  - subst st2. rewrite E. now apply limited_length.
Qed.

Lemma C2_window_bounded_witness :
  Z.of_nat (length (Context.window "u1"
     (mutate (AppendUser Sample.hello) 1 (run [] Storage.empty)))) <= 2 * 5.
Proof.
  apply (C2_window_bounded_for_positive_size Storage.empty [] (AppendUser Sample.hello) 1).
  - split; simpl; constructor.
  - vm_compute. discriminate.
  - intros H. apply (f_equal conversations) in H. vm_compute in H. discriminate.
Defined.

(** C2 (as stated) fails at size 0: a resize to 0 rewrites the conversation
    and keeps the whole window, and an append under a stored size of 0 works
    with the default size. *)
Lemma C2_counterexample_size_zero :
  (let st1 := Context.addUserMessage Sample.hello 1 Storage.empty in
   let st2 := mutate (Resize "u1" 0) 2 st1 in
   st2 <> st1 /\
   ~ Z.of_nat (length (Context.window "u1" st2)) <= 2 * 0) /\
  (let st2 := mutate (AppendUser Sample.hello) 1 Sample.zeroSize in
   from_option contextSize 1 (botSettings Sample.zeroSize) = 0 /\
   st2 <> Sample.zeroSize /\
   ~ Z.of_nat (length (Context.window "u1" st2)) <= 2 * 0).
Proof.
  split; cbv zeta.
  - split.
    + intros H. apply (f_equal conversations) in H. vm_compute in H. discriminate.
    + vm_compute. intros H. apply H. reflexivity.
  - split; [reflexivity|]. split.
    + intros H. apply (f_equal conversations) in H. vm_compute in H. discriminate.
    + vm_compute. intros H. apply H. reflexivity.
Qed.

(** C8. With context awareness off (or no settings stored), [getContext]
    returns the empty sequence and the store is returned as it was, and both
    appends return the store as it was. *)
Theorem C8_context_awareness_off_is_noop
    (st : MemStorage) (userId content : string) (message : Message) (now : Z) :
  (forall bs, botSettings st = Some bs -> contextAwareness bs = false) ->
  Context.getContext userId now st = ([], st) /\
  Context.addUserMessage message now st = st /\
  Context.addBotMessage userId content now st = (st, None).
Proof.
  intros Hoff.
  unfold Context.getContext, Context.addUserMessage, Context.addBotMessage,
    Storage.getBotSettings.
  destruct (botSettings st) as [bs|]; [|auto].
  rewrite (Hoff bs eq_refl). auto.
Qed.

Lemma C8_context_awareness_off_witness :
  let st := Storage.set_botSettings
              (Some (mkBotSettings false true false false "gpt" "0.7" 150 5))
              (Context.addUserMessage Sample.hello 1 Storage.empty) in
  Context.getContext "u1" 2 st = ([], st) /\
  Context.addUserMessage Sample.hello 2 st = st /\
  Context.addBotMessage "u1" "hi" 2 st = (st, None).
Proof.
  apply C8_context_awareness_off_is_noop.
  intros bs H. injection H as <-. reflexivity.
Defined.

(** C9 (as stated) fails: with context awareness on and no active
    conversation, [addBotMessage] creates nothing. *)
Lemma C9_counterexample_no_lazy_creation :
  from_option contextAwareness false (botSettings Storage.empty) = true /\
  Storage.getActiveConversationByUserId "u1" Storage.empty = None /\
  let r := Context.addBotMessage "u1" "Hello there!" 1 Storage.empty in
  fst r = Storage.empty /\
  Storage.getActiveConversationByUserId "u1" (fst r) = None.
Proof. repeat split. Qed.

(** C9 (as amended). With context awareness on and a context size in effect
    of at least 1, [addBotMessage] appends the assistant turn, stamped with
    the current time, to the user's active conversation when there is one,
    keeps the most recent [2 * contextSize] entries and stores them; when
    there is none it logs an error and leaves the store as it was. *)
Theorem C9_appendAssistant_needs_active_conversation
    (st : MemStorage) (bs : BotSettings) (userId content : string) (now : Z) :
  Storage.wf st ->
  botSettings st = Some bs -> contextAwareness bs = true ->
  1 <= Context.sizeInEffect st ->
  let r := Context.addBotMessage userId content now st in
  match Storage.getActiveConversationByUserId userId st with
  | Some c =>
      Storage.getActiveConversationByUserId userId (fst r) =
        Some (withContext c
                (CtxArray (mostRecent (Z.to_nat (2 * Context.sizeInEffect st))
                             (Context.window userId st
                                ++ [mkContextMessage assistant content now])))
                now) /\
      snd r = None
  | None =>
      fst r = st /\
      snd r = Some ("No active conversation found for user " ++ userId
                      ++ " when adding bot message")%string
  end.
Proof.
  intros Hwf Hbs Hca Hsize. cbv zeta.
  destruct (Storage.getActiveConversationByUserId userId st) as [c|] eqn:Hact.
  - destruct (addBotMessage_active userId content now st bs c Hwf Hbs Hca Hact)
      as (_ & _ & L & A).
    rewrite <- limited_mostRecent by assumption. auto.
  - now rewrite (addBotMessage_inactive userId content now st bs Hbs Hca Hact).
Qed.

Lemma C9_appendAssistant_witness :
  let st := Context.addUserMessage Sample.hello 1 Storage.empty in
  Storage.getActiveConversationByUserId "u1"
    (fst (Context.addBotMessage "u1" "Hello there!" 2 st)) =
  Some (mkConversation 1 "u1"
          (CtxArray [mkContextMessage user "hello" 1;
                     mkContextMessage assistant "Hello there!" 2])
          true 2 1).
Proof.
  pose proof (C9_appendAssistant_needs_active_conversation
                (Context.addUserMessage Sample.hello 1 Storage.empty)
                Storage.defaultSettings "u1" "Hello there!" 2) as H.
  destruct H as [H _].
  - apply (mutate_wf (AppendUser Sample.hello) 1 Storage.empty). split; simpl; constructor.
  - reflexivity.
  - reflexivity.
  - vm_compute. discriminate.
  - exact H.
Defined.

(** ** Moderation *)

Section ModerationFacts.

Implicit Types (env : Env) (w : World) (message : Message).

(** The moderation side effects never reject and only touch the trace and
    the console. *)
Lemma executeModerationAction_frame message action reason env w :
  exists w',
    Moderation.executeModerationAction message action reason env w = (Ok tt, w') /\
    storage w' = storage w /\ useOpenAI w' = useOpenAI w /\
    exists evs, trace w' = trace w ++ evs.
Proof.
  unfold Moderation.executeModerationAction.
  destruct action; unfold bind, try_catch, discord, consoleLine, ret; simpl.
  all: repeat match goal with
       | |- context [gateway ?e ?n] => destruct (gateway e n)
       | |- context [inGuild ?m] => destruct (inGuild m)
       end; simpl.
  all: eexists; split; [reflexivity|]; simpl; repeat split; eexists.
  all: rewrite <- ?app_assoc; try reflexivity; try (symmetry; apply app_nil_r).
Qed.

Lemma scorerConsulted_true message w :
  scorerConsulted message w = true ->
  exists bs, botSettings (storage w) = Some bs /\ autoModeration bs = true /\
             JS.blank (content message) = false.
Proof.
  unfold scorerConsulted. intros [Ha Hb%negb_true_iff]%andb_true_iff.
  destruct (botSettings (storage w)) as [bs|]; [|discriminate]. eauto.
Qed.

(** The run of [moderateMessage] when moderation is off or the content is
    blank: nothing happens. *)
Lemma moderateMessage_skipped message env w :
  scorerConsulted message w = false ->
  Moderation.moderateMessage message env w =
    (Ok (Moderation.mkModerationResult Moderation.none None), w).
Proof.
  unfold scorerConsulted. intros H.
  cbv beta iota delta [Moderation.moderateMessage try_catch bind readStorage
    ret Storage.getBotSettings].
  destruct (from_option autoModeration false (botSettings (storage w))); simpl in H |- *.
  - apply negb_false_iff in H. now rewrite H.
  - reflexivity.
Qed.

(** The run of [moderateMessage] when the scorer call rejects or answers
    with no result: the error is caught and logged. *)
Lemma moderateMessage_failed message env w :
  scorerConsulted message w = true ->
  (forall results rest, moderations env (length (trace w)) <> Ok (results :: rest)) ->
  Moderation.moderateMessage message env w =
    (Ok (Moderation.mkModerationResult Moderation.none None),
     say "Error in message moderation:" (emit (ModerationsCreate (content message)) w)).
Proof.
  intros (bs & Hbs & Hauto & Hblank)%scorerConsulted_true Hfail.
  cbv beta iota delta [Moderation.moderateMessage try_catch bind readStorage
    moderationsCreate ret throw consoleLine Storage.getBotSettings].
  rewrite Hbs. cbv beta iota delta [from_option]. rewrite Hauto, Hblank.
  cbv beta iota delta [negb].
  destruct (moderations env (length (trace w))) as [[|results rest]|e];
    [reflexivity| |reflexivity].
  now destruct (Hfail results rest).
Qed.

(** The run of [moderateMessage] once the scorer has answered. *)
Lemma moderateMessage_scored message env w results rest :
  scorerConsulted message w = true ->
  moderations env (length (trace w)) = Ok (results :: rest) ->
  Moderation.moderateMessage message env w =
    match policy results with
    | Moderation.none =>
        (Ok (Moderation.mkModerationResult Moderation.none None),
         emit (ModerationsCreate (content message)) w)
    | action =>
        (Ok (Moderation.mkModerationResult action (Some (Moderation.reasonOf results))),
         snd (Moderation.executeModerationAction message action
                (Moderation.reasonOf results) env
                (afterRecord message action results env w)))
    end.
Proof.
  intros (bs & Hbs & Hauto & Hblank)%scorerConsulted_true Hscore.
  unfold policy.
  cbv beta iota delta [Moderation.moderateMessage try_catch bind readStorage
    moderationsCreate newDate onStorage ret throw Storage.getBotSettings].
  rewrite Hbs. cbv beta iota delta [from_option]. rewrite Hauto, Hblank.
  cbv beta iota delta [negb]. rewrite Hscore.
  unfold afterRecord.
  cbv beta iota zeta delta [Storage.createModerationAction snd].
  destruct (flagged results); cbv beta iota delta [negb]; [|reflexivity].
  destruct (Moderation.hasHighSeverity results
            || JSNum.exceeds (Moderation.maxScore results) JSNum.lit_0_9).
  2: destruct (JSNum.exceeds (Moderation.maxScore results) JSNum.lit_0_7); [|reflexivity].
  all: match goal with
       | |- context [Moderation.executeModerationAction ?m ?a ?r ?e ?x] =>
           destruct (executeModerationAction_frame m a r e x) as (w' & E & _)
       end.
  all: rewrite E; reflexivity.
Qed.

Lemma policy_cases results :
  policy results = Moderation.none \/ policy results = Moderation.warn \/
  policy results = Moderation.mute.
Proof.
  unfold policy.
  destruct (negb _); [auto|]. destruct (_ || _); [auto|]. destruct (JSNum.exceeds _ _); auto.
Qed.

Lemma moderateMessage_resolves message env w :
  exists r w', Moderation.moderateMessage message env w = (Ok r, w').
Proof.
  destruct (scorerConsulted message w) eqn:Hon.
  2:{ rewrite (moderateMessage_skipped _ _ _ Hon). eauto. }
  destruct (moderations env (length (trace w))) as [[|results rest]|e] eqn:Hscore.
  1,3: rewrite moderateMessage_failed by (assumption || (intros ? ?; congruence)); eauto.
  rewrite (moderateMessage_scored _ _ _ _ _ Hon Hscore).
  destruct (policy results); eauto.
Qed.

Lemma afterRecord_store message action results env w :
  moderationActions (storage (afterRecord message action results env w)) =
    <[currentModerationActionId (storage w) :=
        recordFor message action results (currentModerationActionId (storage w))
                  (dateNow env (S (length (trace w))))]>
      (moderationActions (storage w)).
Proof.
  unfold afterRecord, recordFor. simpl. rewrite length_app. simpl.
  now rewrite Nat.add_1_r.
Qed.

End ModerationFacts.

(** C3 (as stated) fails: an unflagged category scored 0.75 next to a flagged
    one scored 0.6 gives [warn] with a record, where the largest score among
    the flagged categories (0.6) would give [none]. *)
Lemma C3_counterexample_unflagged_score_counts :
  claimedPolicy Sample.borderline = Moderation.none /\
  let out := Moderation.moderateMessage Sample.rude Sample.quiet Sample.world in
  fst out = Ok (Moderation.mkModerationResult Moderation.warn
                  (Some "Message contained inappropriate content: harassment")) /\
  moderationActions (storage (snd out)) !! 1 =
    Some (mkModerationAction 1 "u1" "warn"
            "Message contained inappropriate content: harassment" 1).
Proof. vm_compute. repeat split. Qed.

(** C3 (as amended). For every scorer result that [moderateMessage] receives:
    if its [flagged] field is false the answer is [none] and the store is as
    before; otherwise, with [maxScore] the largest of all category scores, the
    answer is [mute] if a category marked true is in the high-severity list or
    [maxScore > 0.9], else [warn] if [maxScore > 0.7], and one record is added
    for it; else [none] and the store is as before. *)
Theorem C3_classifier_policy
    (env : Env) (w : World) (message : Message)
    (results : ModerationEntry) (rest : list ModerationEntry) :
  scorerConsulted message w = true ->
  moderations env (length (trace w)) = Ok (results :: rest) ->
  let out := Moderation.moderateMessage message env w in
  let id := currentModerationActionId (storage w) in
  let now := dateNow env (S (length (trace w))) in
  match policy results with
  | Moderation.none =>
      fst out = Ok (Moderation.mkModerationResult Moderation.none None) /\
      storage (snd out) = storage w
  | action =>
      fst out = Ok (Moderation.mkModerationResult action
                      (Some (Moderation.reasonOf results))) /\
      moderationActions (storage (snd out)) =
        <[id := recordFor message action results id now]> (moderationActions (storage w))
  end.
Proof.
  intros Hon Hscore. cbv zeta. rewrite (moderateMessage_scored _ _ _ _ _ Hon Hscore).
  destruct (policy_cases results) as [E|[E|E]]; rewrite E; cbn [fst snd]; split;
    try reflexivity.
  all: match goal with
       | |- context [Moderation.executeModerationAction ?m ?a ?r ?e ?x] =>
           destruct (executeModerationAction_frame m a r e x) as (w' & R & Hst & _)
       end.
  all: rewrite R; cbn [snd]; rewrite Hst; apply afterRecord_store.
Qed.

Lemma C3_classifier_policy_witness :
  let out := Moderation.moderateMessage Sample.rude Sample.hostile Sample.world in
  fst out = Ok (Moderation.mkModerationResult Moderation.warn
                  (Some (Moderation.reasonOf Sample.borderline))) /\
  moderationActions (storage (snd out)) =
    <[1 := recordFor Sample.rude Moderation.warn Sample.borderline 1 1]> ∅.
Proof.
  exact (C3_classifier_policy Sample.hostile Sample.world Sample.rude Sample.borderline []
           eq_refl eq_refl).
Defined.

(** C5. Whenever [moderateMessage] answers [warn] or [mute], the record is in
    the store at a point where the scorer call is the only call made so far;
    the side effects run from that point, never reject, and leave the store
    as it is, whatever the gateway answers. *)
Theorem C5_record_written_before_effects
    (env : Env) (w w' : World) (message : Message) (r : Moderation.ModerationResult) :
  Moderation.moderateMessage message env w = (Ok r, w') ->
  Moderation.action r = Moderation.warn \/ Moderation.action r = Moderation.mute ->
  exists results rest,
    moderations env (length (trace w)) = Ok (results :: rest) /\
    let id := currentModerationActionId (storage w) in
    let record :=
      recordFor message (Moderation.action r) results id (dateNow env (S (length (trace w)))) in
    let w1 := afterRecord message (Moderation.action r) results env w in
    record.(ma_reason) = ("Message contained inappropriate content: "
                            ++ JS.join ", " (Moderation.flaggedCategories results))%string /\
    moderationActions (storage w1) !! id = Some record /\
    trace w1 = trace w ++ [ModerationsCreate (content message)] /\
    Moderation.executeModerationAction message (Moderation.action r)
      (Moderation.reasonOf results) env w1 = (Ok tt, w') /\
    moderationActions (storage w') !! id = Some record.
Proof.
  intros Hrun Hact.
  destruct (scorerConsulted message w) eqn:Hon.
  2:{ rewrite (moderateMessage_skipped _ _ _ Hon) in Hrun. injection Hrun as <- _.
      destruct Hact; discriminate. }
  destruct (moderations env (length (trace w))) as [[|results rest]|e] eqn:Hscore.
  1,3: rewrite moderateMessage_failed in Hrun by (assumption || (intros ? ?; congruence));
       injection Hrun as <- _; destruct Hact; discriminate.
  exists results, rest. split; [reflexivity|]. cbv zeta.
  rewrite (moderateMessage_scored _ _ _ _ _ Hon Hscore) in Hrun.
  assert (policy results = Moderation.action r /\
          w' = snd (Moderation.executeModerationAction message (policy results)
                      (Moderation.reasonOf results) env
                      (afterRecord message (policy results) results env w))) as [Hp Hw].
  { destruct (policy results); injection Hrun as <- <-; simpl in Hact |- *;
      (destruct Hact; discriminate) || auto. }
  rewrite <- Hp.
  destruct (executeModerationAction_frame message (policy results)
              (Moderation.reasonOf results) env
              (afterRecord message (policy results) results env w)) as (w2 & R & Hst & _).
  rewrite R in Hw. simpl in Hw. subst w2.
  split; [reflexivity|].
  assert (moderationActions (storage (afterRecord message (policy results) results env w))
            !! currentModerationActionId (storage w) =
          Some (recordFor message (policy results) results
                  (currentModerationActionId (storage w))
                  (dateNow env (S (length (trace w)))))) as Hrec.
  { rewrite afterRecord_store. apply lookup_insert_eq. }
  split; [exact Hrec|]. split; [reflexivity|]. split; [exact R|].
  rewrite Hst. exact Hrec.
Qed.

Lemma C5_record_written_witness :
  let out := Moderation.moderateMessage Sample.rude Sample.hostile Sample.world in
  console (snd out) =
    ["Failed to delete message:"; "Failed to execute moderation action (warn):"] /\
  moderationActions (storage (snd out)) !! 1 =
    Some (recordFor Sample.rude Moderation.warn Sample.borderline 1 1).
Proof.
  split; [reflexivity|].
  destruct (C5_record_written_before_effects Sample.hostile Sample.world
              (snd (Moderation.moderateMessage Sample.rude Sample.hostile Sample.world))
              Sample.rude
              (Moderation.mkModerationResult Moderation.warn
                 (Some (Moderation.reasonOf Sample.borderline))))
    as (results & rest & Hscore & H).
  - vm_compute. reflexivity.
  - left. reflexivity.
  - injection Hscore as <- <-. apply H.
Defined.

(** A scorer that is down: the error is logged and the answer is [none]. *)
Example moderateMessage_scorer_down :
  Moderation.moderateMessage Sample.rude Sample.scorerDown Sample.world =
    (Ok (Moderation.mkModerationResult Moderation.none None),
     say "Error in message moderation:"
         (emit (ModerationsCreate "some insult") Sample.world)).
Proof. reflexivity. Qed.

(** C10. [moderateMessage] always resolves. When the scorer call rejects, or
    answers without a result, the answer is [none]; and whenever the answer is
    [none] the store is as before and no Discord call was made, so that a
    failed scoring leaves the same answer, store and trace as an unflagged
    result. *)
Theorem C10_moderateMessage_never_throws (env : Env) (w : World) (message : Message) :
  exists r w',
    Moderation.moderateMessage message env w = (Ok r, w') /\
    ((forall results rest, moderations env (length (trace w)) <> Ok (results :: rest)) ->
     r = Moderation.mkModerationResult Moderation.none None) /\
    (Moderation.action r = Moderation.none ->
     storage w' = storage w /\
     (trace w' = trace w \/ trace w' = trace w ++ [ModerationsCreate (content message)])) /\
    ((forall results rest, moderations env (length (trace w)) <> Ok (results :: rest)) ->
     forall env' results rest,
       moderations env' (length (trace w)) = Ok (results :: rest) ->
       flagged results = false ->
       exists w'',
         Moderation.moderateMessage message env' w = (Ok r, w'') /\
         storage w'' = storage w' /\ trace w'' = trace w').
Proof.
  destruct (scorerConsulted message w) eqn:Hon.
  2:{ do 2 eexists. split; [apply (moderateMessage_skipped _ _ _ Hon)|].
      split; [reflexivity|]. split; [auto|].
      intros _ env' results rest _ _. eexists.
      split; [apply (moderateMessage_skipped _ _ _ Hon)|]. auto. }
  destruct (moderations env (length (trace w))) as [[|results rest]|e] eqn:Hscore.
  1,3: do 2 eexists;
       (split; [apply (moderateMessage_failed _ _ _ Hon); intros ? ?; congruence|]);
       (split; [reflexivity|]); (split; [simpl; auto|]);
       intros _ env' results' rest' Hscore' Hflag; eexists;
       rewrite (moderateMessage_scored _ _ _ _ _ Hon Hscore');
       unfold policy; rewrite Hflag; simpl; auto.
  rewrite (moderateMessage_scored _ _ _ _ _ Hon Hscore).
  destruct (policy_cases results) as [E|[E|E]]; rewrite E; do 2 eexists;
    (split; [reflexivity|]); (split; [intros H; now destruct (H results rest)|]);
    (split; [|intros H; now destruct (H results rest)]); simpl; (auto || discriminate).
Qed.

(** ** Natural-language replies *)

Section NLPFacts.

Implicit Types (env : Env) (w : World) (message : Message).

Lemma length_emit ev w : length (trace (emit ev w)) = S (length (trace w)).
Proof. simpl. rewrite length_app. simpl. apply Nat.add_1_r. Qed.

(** What a run of [processNaturalLanguage] leaves behind. *)
Lemma processNaturalLanguage_run message env w :
  exists w',
    NLP.processNaturalLanguage message env w = (Ok tt, w') /\
    useOpenAI w' = staysLive env w /\
    isReady w' = isReady w /\
    hasMessageContentPrivilege w' = hasMessageContentPrivilege w /\
    trace w' =
      trace w ++ SendTyping
        :: (if useOpenAI w then [requestFor message env w] else [])
        ++ Reply (replyText message env w)
        :: match gateway env (replyPosition w) with
           | None => []
           | Some _ => [Reply NLP.APOLOGY]
           end /\
    storage w' =
      match gateway env (replyPosition w) with
      | None =>
          fst (Context.addBotMessage (author_id message) (replyText message env w)
                 (dateNow env (S (replyPosition w)))
                 (snd (afterUserTurn message env w)))
      | Some _ => snd (afterUserTurn message env w)
      end.
Proof.
  unfold staysLive, replyPosition, replyText, requestFor, afterUserTurn.
  cbv beta iota zeta delta [NLP.processNaturalLanguage try_catch bind readStorage
    chatCompletionsCreate newDate onStorage ret throw consoleLine discord getWorld
    setUseOpenAI Storage.getBotSettings].
  positions.
  destruct (Context.getContext _ _ _) as [context st] eqn:Hctx.
  repeat answer.
  all: settle.
Qed.

Lemma generateResponse_run prompt env w :
  NLP.generateResponse prompt env w =
    if useOpenAI w then
      let w1 := emit (ChatCompletionsCreate "gpt-4o"
                        [("system", Context.SYSTEM_PROMPT); ("user", prompt)] "0.7" 150) w in
      match completions env (length (trace w)) with
      | Ok completion => (Ok (JS.or_else completion NLP.NO_RESPONSE), w1)
      | Throw e =>
          (Ok (NLP.getFallbackResponse prompt),
           if NLP.isApiLimit e
           then set_useOpenAI false
                  (say "Switching to fallback mode due to API limits"
                     (say "Error generating response:" w1))
           else say "Error generating response:" w1)
      end
    else
      (Ok (NLP.getFallbackResponse prompt),
       say "Using fallback response generator (OpenAI unavailable)" w).
Proof.
  cbv beta iota zeta delta [NLP.generateResponse try_catch bind
    chatCompletionsCreate ret consoleLine getWorld setUseOpenAI].
  destruct (useOpenAI w); cbn [negb]; [|reflexivity].
  destruct (completions env (length (trace w))) as [c|e]; [reflexivity|].
  now destruct (NLP.isApiLimit e).
Qed.

Lemma analyzeSentiment_run text env w :
  exists s,
    NLP.analyzeSentiment text env w =
      if useOpenAI w then
        let w1 := emit (ChatCompletionsCreateJson
                          [("system", NLP.SENTIMENT_PROMPT); ("user", text)]) w in
        match sentiments env (length (trace w)) with
        | Ok _ => (Ok s, w1)
        | Throw e =>
            (Ok (NLP.getFallbackSentiment text),
             if NLP.isApiLimit e
             then set_useOpenAI false
                    (say "Switching to fallback mode due to API limits"
                       (say "Failed to analyze sentiment:" w1))
             else say "Failed to analyze sentiment:" w1)
        end
      else
        (Ok (NLP.getFallbackSentiment text),
         say "Using fallback sentiment analyzer (OpenAI unavailable)" w).
Proof.
  cbv beta iota zeta delta [NLP.analyzeSentiment try_catch bind
    chatCompletionsCreateJson ret consoleLine getWorld setUseOpenAI].
  destruct (useOpenAI w); cbn [negb]; [|now exists (NLP.mkSentiment 3 0)].
  destruct (sentiments env (length (trace w))) as [c|e].
  - eexists. reflexivity.
  - exists (NLP.mkSentiment 3 0). now destruct (NLP.isApiLimit e).
Qed.

Lemma getFallbackResponse_nonempty prompt : NLP.getFallbackResponse prompt <> "".
Proof.
  unfold NLP.getFallbackResponse. cbv zeta.
  repeat match goal with
         | |- context [if ?b then _ else _] => destruct b
         end; discriminate.
Qed.

Lemma backendCalls_app evs evs' :
  backendCalls (evs ++ evs') = (backendCalls evs + backendCalls evs')%nat.
Proof. unfold backendCalls. now rewrite List.filter_app, length_app. Qed.

End NLPFacts.

(** A quota error on the first standalone request, then a second request:
    both are answered with the same fallback text and the backend is called
    once in all. *)
Example generateResponse_quota_then_offline :
  let first := NLP.generateResponse "hello" Sample.exhausted Sample.world in
  let second := NLP.generateResponse "hello" Sample.exhausted (snd first) in
  fst first = Ok "Hello there! I'm your AI assistant bot. How can I help you today?" /\
  useOpenAI (snd first) = false /\
  fst second = fst first /\
  useOpenAI (snd second) = false /\
  backendCalls (trace (snd second)) = 1%nat.
Proof. vm_compute. repeat split. Qed.

(** C4. For every operation of [nlp.ts], from every process state and with
    every outside world: in fallback mode the operation stays in fallback mode
    and sends no request to the backend; in live mode it sends exactly one
    request (no retry) and leaves live mode exactly when that request fails
    with an error that mentions [insufficient_quota] or [rate limit]; and in
    fallback mode or after a failed request the answer is the fallback answer,
    a function of the prompt alone, which is never the empty string. *)
Theorem C4_live_to_fallback_is_one_way (env : Env) (w : World) (call : NlpCall) :
  let w' := after call env w in
  (useOpenAI w = false ->
   useOpenAI w' = false /\ backendCalls (trace w') = backendCalls (trace w)) /\
  (useOpenAI w = true ->
   backendCalls (trace w') = S (backendCalls (trace w)) /\
   (useOpenAI w' = false <->
    exists e, backendFailure call env w = Some e /\ NLP.isApiLimit e = true)) /\
  (useOpenAI w = false \/ (exists e, backendFailure call env w = Some e) ->
   match call with
   | Respond message =>
       fst (NLP.processNaturalLanguage message env w) = Ok tt /\
       In (Reply (NLP.getFallbackResponse (content message))) (newEvents w w') /\
       NLP.getFallbackResponse (content message) <> ""
   | Generate prompt =>
       fst (NLP.generateResponse prompt env w) = Ok (NLP.getFallbackResponse prompt) /\
       NLP.getFallbackResponse prompt <> ""
   | Sentiment text =>
       fst (NLP.analyzeSentiment text env w) = Ok (NLP.getFallbackSentiment text)
   end).
Proof.
  destruct call as [message|prompt|text]; cbv zeta; unfold after, backendFailure.
  - destruct (processNaturalLanguage_run message env w) as (w' & R & L & _ & _ & T & _).
    rewrite R. cbn [fst snd]. unfold newEvents. rewrite L, T.
    rewrite drop_app_length, backendCalls_app.
    unfold staysLive, replyText, requestFor.
    split; [|split].
    + intros ->. split; [reflexivity|].
      destruct (gateway env (replyPosition w)); cbn; lia.
    + intros ->. split.
      * destruct (gateway env (replyPosition w)); cbn; lia.
      * cbn [andb]. destruct (completions env (S (length (trace w)))) as [c|e].
        -- split; [discriminate|]. intros (e & [=] & _).
        -- rewrite negb_false_iff. split; [eauto|]. now intros (e' & [= <-] & ?).
    + intros H. split; [reflexivity|]. split; [|apply getFallbackResponse_nonempty].
      destruct (useOpenAI w).
      * destruct H as [[=]|(e & H)].
        destruct (completions env (S (length (trace w)))); [discriminate|].
        cbn. auto.
      * cbn. auto.
  - rewrite generateResponse_run.
    destruct (useOpenAI w) eqn:Hlive; cbv zeta.
    + split; [discriminate|]. split.
      * intros _.
        destruct (completions env (length (trace w))) as [c|e];
          [|destruct (NLP.isApiLimit e) eqn:Hl];
          cbn [fst snd trace set_useOpenAI say emit useOpenAI]; rewrite ?Hlive;
          (split; [rewrite backendCalls_app; cbn; lia|]).
        -- split; [discriminate|]. intros (e & [=] & _).
        -- split; [eauto|reflexivity].
        -- split; [discriminate|]. intros (e' & [= <-] & ?). congruence.
      * intros [[=]|(e & H)].
        destruct (completions env (length (trace w))); [discriminate|].
        split; [reflexivity|apply getFallbackResponse_nonempty].
    + split; [auto|]. split; [discriminate|].
      intros _. split; [reflexivity|apply getFallbackResponse_nonempty].
  - destruct (analyzeSentiment_run text env w) as (s & R). rewrite R.
    destruct (useOpenAI w) eqn:Hlive; cbv zeta.
    + split; [discriminate|]. split.
      * intros _.
        destruct (sentiments env (length (trace w))) as [c|e];
          [|destruct (NLP.isApiLimit e) eqn:Hl];
          cbn [fst snd trace set_useOpenAI say emit useOpenAI]; rewrite ?Hlive;
          (split; [rewrite backendCalls_app; cbn; lia|]).
        -- split; [discriminate|]. intros (e & [=] & _).
        -- split; [eauto|reflexivity].
        -- split; [discriminate|]. intros (e' & [= <-] & ?). congruence.
      * intros [[=]|(e & H)].
        destruct (sentiments env (length (trace w))); [discriminate|]. reflexivity.
    + split; [auto|]. split; [discriminate|]. intros _. reflexivity.
Qed.

(** C6 (as stated) fails: in live mode, a backend call that fails with a
    connection error is answered with the fallback reply for "hello", and that
    reply is appended to the context as an assistant turn. *)
Lemma C6_counterexample_transient_failure_uses_fallback :
  let w' := snd (NLP.processNaturalLanguage Sample.hello Sample.flaky Sample.world) in
  useOpenAI Sample.world = true /\
  completions Sample.flaky 1 = Throw "Error: connect ECONNRESET" /\
  NLP.isApiLimit "Error: connect ECONNRESET" = false /\
  useOpenAI w' = true /\
  List.filter (fun ev => match ev with Reply _ => true | _ => false end)
    (newEvents Sample.world w') =
    [Reply "Hello there! I'm your AI assistant bot. How can I help you today?"] /\
  Context.window "u1" (storage w') =
    [mkContextMessage user "hello" 0;
     mkContextMessage assistant
       "Hello there! I'm your AI assistant bot. How can I help you today?" 3].
Proof. vm_compute. repeat split. Qed.

(** C6 (as amended). When the responder is live and the backend call fails
    with an error that is neither a quota nor a rate-limit error, the run
    leaves the responder live, sends one request, and replies with the
    fallback answer for the message content; when that reply is delivered and
    context awareness is on (context size in effect at least 1), the answer is
    appended to the user's window as an assistant turn. *)
Theorem C6_transient_failure_answers_with_fallback
    (env : Env) (w : World) (message : Message) (e : string) :
  useOpenAI w = true ->
  completions env (S (length (trace w))) = Throw e ->
  NLP.isApiLimit e = false ->
  let w' := snd (NLP.processNaturalLanguage message env w) in
  let text := NLP.getFallbackResponse (content message) in
  useOpenAI w' = true /\
  (exists tail,
     newEvents w w' = SendTyping :: requestFor message env w :: Reply text :: tail) /\
  (forall bs,
     gateway env (S (S (length (trace w)))) = None ->
     Storage.wf (storage w) ->
     botSettings (storage w) = Some bs -> contextAwareness bs = true ->
     1 <= Context.sizeInEffect (storage w) ->
     exists earlier,
       Context.window (author_id message) (storage w') =
         earlier ++ [mkContextMessage assistant text
                       (dateNow env (S (S (S (length (trace w))))))]).
Proof.
  intros Hlive Hfail Hlimit. cbv zeta.
  destruct (processNaturalLanguage_run message env w) as (w' & R & L & _ & _ & T & St).
  rewrite R. cbn [snd]. unfold newEvents. rewrite L, T, drop_app_length.
  unfold staysLive, replyText, replyPosition in *. rewrite Hlive, Hfail, Hlimit in *.
  split; [reflexivity|]. split; [eexists; reflexivity|].
  intros bs Hsent Hwf Hbs Hca Hsize. rewrite Hsent in St. rewrite St.
  unfold afterUserTurn.
  set (now := dateNow env (length (trace w))).
  destruct (addUserMessage_spec message now (storage w) bs Hwf Hbs Hca)
    as (Hwf1 & Hbs1 & c & Hact & _).
  rewrite (getContext_store _ now _ _ Hact).
  set (st1 := Context.addUserMessage message now (storage w)) in *.
  rewrite <- Hbs1 in Hbs.
  match goal with
  | |- context [Context.addBotMessage ?u ?t ?n st1] =>
      destruct (addBotMessage_active u t n st1 bs c Hwf1 Hbs Hca Hact) as (_ & _ & _ & A)
  end.
  assert (Context.sizeInEffect st1 = Context.sizeInEffect (storage w)) as Hs.
  { unfold Context.sizeInEffect, Storage.getBotSettings. now rewrite Hbs1. }
  rewrite (window_active _ _ _ A). cbn [withContext conv_context].
  rewrite Hs, limited_mostRecent by assumption.
  rewrite mostRecent_snoc by lia. eexists. reflexivity.
Qed.

Lemma C6_transient_failure_witness :
  let w' := snd (NLP.processNaturalLanguage Sample.hello Sample.flaky Sample.world) in
  useOpenAI w' = true /\
  exists earlier,
    Context.window "u1" (storage w') =
      earlier ++ [mkContextMessage assistant
                    (NLP.getFallbackResponse "hello") 3].
Proof.
  destruct (C6_transient_failure_answers_with_fallback Sample.flaky Sample.world
              Sample.hello "Error: connect ECONNRESET" eq_refl eq_refl eq_refl)
    as (Hlive & _ & Hturn).
  split; [exact Hlive|].
  apply (Hturn Storage.defaultSettings); try reflexivity.
  - split; simpl; constructor.
  - vm_compute. discriminate.
Defined.

(** ** The dispatcher *)

Section DispatcherFacts.

Variable handleCommand : Message -> string -> M unit.

Implicit Types (env : Env) (w : World) (message : Message).

Lemma ensureUserExists_run message env w :
  exists st,
    ensureUserExists message env w = (Ok tt, set_storage st w) /\
    botSettings st = botSettings (storage w) /\
    conversations st = conversations (storage w) /\
    moderationActions st = moderationActions (storage w).
Proof.
  cbv beta iota zeta delta [ensureUserExists bind readStorage newDate onStorage ret].
  destruct (Storage.getDiscordUser (author_id message) (storage w)).
  - exists (storage w). now destruct w.
  - eexists. split; [reflexivity|]. cbn. auto.
Qed.

(** With auto-moderation on, the handler ends with the moderation step for
    every message that is not a command: the [action] of the result is a
    non-empty string whatever the classifier decided. *)
Lemma moderation_gate_is_terminal message env w bs :
  isReady w = true -> author_bot message = false ->
  hasMessageContentPrivilege w = true ->
  JS.startsWith (content message) PREFIX = false ->
  botSettings (storage w) = Some bs -> autoModeration bs = true ->
  onMessageCreate handleCommand message env w =
    (Ok tt, snd (Moderation.moderateMessage message env
                   (snd (ensureUserExists message env w)))).
Proof.
  intros Hready Hbot Hpriv Hprefix Hbs Hauto.
  destruct (ensureUserExists_run message env w) as (st & R & Hbs1 & _).
  destruct (moderateMessage_resolves message env (set_storage st w)) as (r & w2 & Rm).
  unfold onMessageCreate.
  cbv beta iota zeta delta [try_catch bind readStorage ret getWorld Storage.getBotSettings].
  rewrite Hready, Hbot. cbn [negb orb]. cbv beta iota. rewrite R. cbv beta iota.
  cbn [hasMessageContentPrivilege storage set_storage].
  rewrite Hpriv, Hprefix. cbn [storage set_storage].
  rewrite Hbs1, Hbs. cbn [from_option]. rewrite Hauto.
  cbv beta iota. cbn [snd]. rewrite Rm. cbv beta iota.
  now destruct (Moderation.action r).
Qed.

End DispatcherFacts.

(** C1 (the code departs from it). A direct message "hello" from a human user,
    with content readable, auto-moderation on and a classifier answer of
    [none]: the handler stops after the moderation step. The only call made is
    the scorer call; no user turn is recorded and nothing is replied. With
    auto-moderation off the same message is answered. *)
Theorem C1_none_result_still_stops_dispatch :
  let w1 := snd (ensureUserExists Sample.hello Sample.calm Sample.world) in
  let w' := snd (onMessageCreate Sample.noCommands Sample.hello Sample.calm Sample.world) in
  let w'' := snd (onMessageCreate Sample.noCommands Sample.hello Sample.calm
                    Sample.unmoderated) in
  (author_bot Sample.hello = false /\
   isDMBased Sample.hello = true /\
   hasMessageContentPrivilege Sample.world = true /\
   from_option autoModeration false (botSettings (storage Sample.world)) = true /\
   fst (Moderation.moderateMessage Sample.hello Sample.calm w1) =
     Ok (Moderation.mkModerationResult Moderation.none None)) /\
  (newEvents Sample.world w' = [ModerationsCreate "hello"] /\
   Context.window "u1" (storage w') = []) /\
  (List.filter (fun ev => match ev with Reply _ => true | _ => false end)
     (newEvents Sample.unmoderated w'') = [Reply "Hi!"] /\
   map cm_role (Context.window "u1" (storage w'')) = [user; assistant]).
Proof. vm_compute. repeat split. Qed.

(** C7. On the client without the message-content intent the outcome of the
    handler (result, store, trace and console) is the same for two events that
    differ only in content, with or without the command prefix; and in the
    branch that a ready handler reaches for a human author, an event that
    mentions the bot or is a direct message is answered with the fixed
    limited-permissions text (followed by the error text only if that reply is
    rejected), while any other event causes no call at all. *)
Theorem C7_limited_mode_ignores_content
    (handleCommand : Message -> string -> M unit)
    (env : Env) (w : World) (message : Message) (text : string) :
  hasMessageContentPrivilege w = false ->
  let out := onMessageCreate handleCommand message env w in
  onMessageCreate handleCommand (withContent text message) env w = out /\
  fst out = Ok tt /\
  (isReady w = true -> author_bot message = false ->
   newEvents w (snd out) =
     if mentionsClient message || isDMBased message then
       Reply LIMITED_PERMISSIONS
         :: match gateway env (length (trace w)) with
            | None => []
            | Some _ => [Reply REQUEST_ERROR]
            end
     else []).
Proof.
  intros Hpriv. cbv zeta. unfold newEvents.
  destruct (ensureUserExists_run message env w) as (st & R & _).
  assert (ensureUserExists (withContent text message) env w = (Ok tt, set_storage st w)) as R'.
  { rewrite <- R. reflexivity. }
  unfold onMessageCreate.
  cbv beta iota zeta delta [try_catch bind ret getWorld discord consoleLine].
  cbn [withContent author_bot mentionsClient isDMBased].
  destruct (negb (isReady w) || author_bot message) eqn:Hskip.
  { split; [reflexivity|]. split; [reflexivity|].
    intros Hready Hbot. rewrite Hready, Hbot in Hskip. discriminate. }
  rewrite R, R'. cbv beta iota.
  cbn [hasMessageContentPrivilege set_storage trace]. rewrite Hpriv.
  destruct (mentionsClient message || isDMBased message).
  - cbn [trace set_storage].
    destruct (gateway env (length (trace w))) as [e|].
    + cbn [trace emit say set_storage]. rewrite length_app. cbn [length]. rewrite Nat.add_1_r.
      destruct (gateway env (S (length (trace w)))); cbn [fst snd trace emit say set_storage];
        rewrite <- !app_assoc, drop_app_length; auto.
    + cbn [fst snd trace emit set_storage]. rewrite drop_app_length. auto.
  - cbn [fst snd trace set_storage]. rewrite drop_all. auto.
Qed.

Lemma C7_limited_mode_witness :
  let out := onMessageCreate Sample.noCommands Sample.hello Sample.calm Sample.limited in
  onMessageCreate Sample.noCommands (withContent "!help" Sample.hello) Sample.calm
    Sample.limited = out /\
  newEvents Sample.limited (snd out) = [Reply LIMITED_PERMISSIONS].
Proof.
  destruct (C7_limited_mode_ignores_content Sample.noCommands Sample.calm Sample.limited
              Sample.hello "!help" eq_refl) as (Hsame & _ & Hroute).
  split; [exact Hsame|]. exact (Hroute eq_refl eq_refl).
Defined.

(** * Further properties of the code *)

(** ** The [conversations] map, continued *)

Section ConversationsMore.

Implicit Types (l : list Conversation) (c x : Conversation).

Lemma map_set_found_active l id x c :
  List.find (fun y => conv_id y =? id) l = Some x ->
  conv_id c = id -> conv_userId c = conv_userId x -> conv_active c = conv_active x ->
  map conv_userId (List.filter conv_active (Storage.map_set c l)) =
  map conv_userId (List.filter conv_active l).
Proof.
  intros Hfind Hid Hu Ha. revert Hfind.
  induction l as [|y r IH]; simpl; [discriminate|]. subst id.
  destruct (Z.eqb_spec (conv_id y) (conv_id c)) as [E|N].
  - intros [= ->]. simpl. rewrite Ha. destruct (conv_active x); simpl; congruence.
  - intros Hfind. simpl. destruct (conv_active y); simpl; rewrite IH; auto.
Qed.

Lemma map_set_inactive_incl l c u :
  conv_active c = false ->
  In u (map conv_userId (List.filter conv_active (Storage.map_set c l))) ->
  In u (map conv_userId (List.filter conv_active l)).
Proof.
  intros Ha. induction l as [|y r IH]; simpl.
  - now rewrite Ha.
  - destruct (conv_id y =? conv_id c); simpl.
    + rewrite Ha. destruct (conv_active y); simpl; auto.
    + destruct (conv_active y); simpl; [intros [E|H]; auto|auto].
Qed.

Lemma map_set_inactive_NoDup l c :
  conv_active c = false ->
  NoDup (map conv_userId (List.filter conv_active l)) ->
  NoDup (map conv_userId (List.filter conv_active (Storage.map_set c l))).
Proof.
  intros Ha. induction l as [|y r IH]; simpl.
  - rewrite Ha. intros _. constructor.
  - destruct (conv_id y =? conv_id c); simpl.
    + rewrite Ha. destruct (conv_active y); simpl; [|auto].
      intros [_ H]%NoDup_cons. exact H.
    + destruct (conv_active y); simpl; [|auto].
      intros [Hn H]%NoDup_cons. apply NoDup_cons. split; [|auto].
      intros Hin%list_elem_of_In. apply Hn, list_elem_of_In.
      eapply map_set_inactive_incl; eauto.
Qed.

(** Replacing a value that fails a test by one that fails it too does not
    change what [find] returns for that test. *)
Lemma find_map_set_other (P : Conversation -> bool) l id x c :
  List.find (fun y => conv_id y =? id) l = Some x ->
  conv_id c = id -> P c = false -> P x = false ->
  List.find P (Storage.map_set c l) = List.find P l.
Proof.
  intros Hfind Hid Hc Hx. revert Hfind.
  induction l as [|y r IH]; simpl; [discriminate|]. subst id.
  destruct (Z.eqb_spec (conv_id y) (conv_id c)) as [E|N].
  - intros [= ->]. simpl. now rewrite Hc, Hx.
  - intros Hfind. simpl. destruct (P y); auto.
Qed.

Lemma find_active_none_notin l u :
  List.find (fun c => String.eqb (conv_userId c) u && conv_active c) l = None ->
  ~ In u (map conv_userId (List.filter conv_active l)).
Proof.
  induction l as [|y r IH]; simpl; [auto|].
  destruct (String.eqb_spec (conv_userId y) u) as [E|N]; simpl.
  - destruct (conv_active y); [discriminate|]. auto.
  - intros H. destruct (conv_active y); simpl; [|auto].
    intros [E|Hin]; [contradiction|]. now apply IH.
Qed.

End ConversationsMore.

(** ** What the context manager does to the store *)

Section Touched.

Implicit Types (st : MemStorage) (u v : string).

Lemma find_app_or {A : Type} (P : A -> bool) (l l' : list A) :
  List.find P (l ++ l') =
  match List.find P l with Some x => Some x | None => List.find P l' end.
Proof. induction l as [|x r IH]; simpl; [reflexivity|]. now destruct (P x). Qed.

Lemma touched_keeps u now st st' :
  Storage.wf st -> touched u now st st' ->
  Storage.wf st' /\
  botSettings st' = botSettings st /\
  (oneActivePerUser st -> oneActivePerUser st') /\
  (forall v, v <> u ->
     Storage.getActiveConversationByUserId v st' =
     Storage.getActiveConversationByUserId v st).
Proof.
  intros Hwf Ht. induction Ht as [st|st c context Hact|st Hnone|st1 st2 st3 _ IH1 _ IH2].
  - auto.
  - destruct (updateConversation_active u st c context now Hwf Hact) as (W & _ & B).
    split; [exact W|]. split; [exact B|].
    pose proof (active_spec _ _ _ Hact) as (Hin & Hu & Ha).
    pose proof (find_conv_id _ _ (proj1 Hwf) Hin) as Hfind.
    unfold Storage.updateConversation, Storage.getConversation. rewrite Hfind. simpl.
    split.
    + unfold oneActivePerUser. simpl.
      match goal with
      | |- context [Storage.map_set ?c' _] =>
          now rewrite (map_set_found_active _ _ _ c' Hfind eq_refl eq_refl eq_refl)
      end.
    + intros v Hv. unfold Storage.getActiveConversationByUserId. simpl.
      match goal with
      | |- context [Storage.map_set ?c' _] =>
          apply (find_map_set_other _ _ _ _ c' Hfind eq_refl)
      end; simpl; rewrite Hu; destruct (String.eqb_spec u v); congruence || reflexivity.
  - destruct (createConversation_active u st now Hwf Hnone) as (W & _ & _ & B).
    split; [exact W|]. split; [exact B|].
    unfold Storage.createConversation in *. simpl in *.
    rewrite map_set_fresh by apply Hwf.
    split.
    + unfold oneActivePerUser. simpl. intros Hone.
      rewrite List.filter_app, map_app. simpl. apply NoDup_app.
      split; [exact Hone|]. split; [|apply NoDup_singleton].
      intros x Hx [->|[]]%list_elem_of_In.
      apply list_elem_of_In in Hx. now apply (find_active_none_notin _ _ Hnone).
    + intros v Hv. unfold Storage.getActiveConversationByUserId. simpl.
      rewrite find_app_or. simpl.
      destruct (String.eqb_spec u v); [congruence|]. simpl.
      now destruct (List.find _ (conversations st)).
  - destruct (IH1 Hwf) as (W2 & B2 & O2 & I2).
    destruct (IH2 W2) as (W3 & B3 & O3 & I3).
    split; [exact W3|]. split; [congruence|]. split; [auto|].
    intros v Hv. rewrite I3, I2; auto.
Qed.

Lemma mutate_touched m now st :
  Storage.wf st -> touched (target m) now st (mutate m now st).
Proof.
  intros Hwf. destruct m as [message|u text|u n]; simpl.
  - unfold Context.addUserMessage.
    destruct (Storage.getBotSettings st) as [bs|]; [|constructor].
    destruct (negb (contextAwareness bs)); [constructor|].
    destruct (Storage.getActiveConversationByUserId (author_id message) st) as [c|] eqn:Hact.
    + now apply touched_update.
    + destruct (createConversation_active _ _ now Hwf Hact) as (_ & A & _).
      eapply touched_trans; [apply touched_create; exact Hact|].
      destruct (Storage.createConversation _ now st) as [c0 st1]. simpl in A.
      now apply touched_update.
  - unfold Context.addBotMessage.
    destruct (Storage.getBotSettings st) as [bs|]; [|constructor].
    destruct (negb (contextAwareness bs)); [constructor|].
    destruct (Storage.getActiveConversationByUserId u st) as [c|] eqn:Hact; [|constructor].
    now apply touched_update.
  - unfold Context.updateContext.
    destruct (Storage.getActiveConversationByUserId u st) as [c|] eqn:Hact; [|constructor].
    destruct (conv_context c); [|constructor].
    destruct (_ >? _); [|constructor]. now apply touched_update.
Qed.

Lemma getContext_touched u now st : touched u now st (snd (Context.getContext u now st)).
Proof.
  unfold Context.getContext.
  destruct (Storage.getBotSettings st) as [bs|]; [|constructor].
  destruct (negb (contextAwareness bs)); [constructor|].
  destruct (Storage.getActiveConversationByUserId u st) as [c|] eqn:Hact; [constructor|].
  destruct (Storage.createConversation _ now st) as [c0 st1] eqn:Hc.
  change st1 with (snd (c0, st1)). rewrite <- Hc. now apply touched_create.
Qed.

End Touched.

(** ** Closing conversations *)

Section Closing.

Implicit Types (st : MemStorage) (u v : string) (l : list Conversation).

Lemma find_active_some_in l u c :
  List.find (fun c => String.eqb (conv_userId c) u && conv_active c) l = Some c ->
  In u (map conv_userId (List.filter conv_active l)).
Proof.
  intros H. apply find_some in H as [Hin [Hu Ha]%andb_true_iff].
  apply String.eqb_eq in Hu. subst u.
  apply in_map, filter_In. auto.
Qed.

Lemma find_deactivated l u c c' :
  NoDup (map conv_id l) ->
  NoDup (map conv_userId (List.filter conv_active l)) ->
  List.find (fun c => String.eqb (conv_userId c) u && conv_active c) l = Some c ->
  conv_id c' = conv_id c -> conv_active c' = false ->
  List.find (fun c => String.eqb (conv_userId c) u && conv_active c)
            (Storage.map_set c' l) = None.
Proof.
  intros Hids Hone Hfind Hid Ha. revert Hids Hone Hfind.
  induction l as [|y r IH]; simpl; [discriminate|].
  intros [Hy Hr]%NoDup_cons Hone.
  destruct (String.eqb (conv_userId y) u && conv_active y) eqn:Py.
  - intros [= ->]. rewrite Hid, Z.eqb_refl. simpl. rewrite Ha, andb_false_r.
    apply andb_true_iff in Py as [Hu Hact]. apply String.eqb_eq in Hu.
    rewrite Hact in Hone. simpl in Hone. apply NoDup_cons in Hone as [Hn _].
    destruct (List.find _ r) as [z|] eqn:Hz; [|reflexivity].
    exfalso. apply Hn, list_elem_of_In. rewrite Hu. eapply find_active_some_in, Hz.
  - intros Hfind.
    destruct (Z.eqb_spec (conv_id y) (conv_id c')) as [E|_]; simpl.
    + exfalso. apply Hy. rewrite E, Hid.
      apply list_elem_of_In, in_map. eapply find_some, Hfind.
    + rewrite Py. apply IH; auto.
      destruct (conv_active y); simpl in Hone; [|exact Hone].
      now apply NoDup_cons in Hone as [_ H].
Qed.

Lemma find_id_map_set_ne l id c :
  id <> conv_id c ->
  List.find (fun y => conv_id y =? id) (Storage.map_set c l) =
  match List.find (fun y => conv_id y =? id) l with
  | Some x => Some x
  | None => None
  end.
Proof.
  intros Hne. induction l as [|y r IH]; simpl.
  - destruct (Z.eqb_spec (conv_id c) id); [congruence|reflexivity].
  - destruct (Z.eqb_spec (conv_id y) (conv_id c)) as [E|N]; simpl.
    + destruct (Z.eqb_spec (conv_id c) id); [congruence|].
      destruct (Z.eqb_spec (conv_id y) id); [congruence|].
      now destruct (List.find _ r).
    + destruct (conv_id y =? id); [reflexivity|exact IH].
Qed.

(** What [closeConversation] of the context manager does. *)
Lemma closeConversation_spec u now st :
  Storage.wf st -> oneActivePerUser st ->
  let r := Context.closeConversation u now st in
  Storage.wf (snd r) /\
  oneActivePerUser (snd r) /\
  botSettings (snd r) = botSettings st /\
  currentConversationId (snd r) = currentConversationId st /\
  Storage.getActiveConversationByUserId u (snd r) = None /\
  (forall v, v <> u ->
     Storage.getActiveConversationByUserId v (snd r) =
     Storage.getActiveConversationByUserId v st) /\
  match Storage.getActiveConversationByUserId u st with
  | Some c =>
      fst r = true /\
      Storage.getConversation (conv_id c) (snd r) =
        Some (mkConversation (conv_id c) (conv_userId c) (conv_context c) false now
                             (conv_createdAt c))
  | None => r = (false, st)
  end.
Proof.
  intros Hwf Hone. cbv zeta. unfold Context.closeConversation.
  destruct (Storage.getActiveConversationByUserId u st) as [c|] eqn:Hact.
  2:{ simpl. rewrite Hact. auto 10. }
  pose proof (active_spec _ _ _ Hact) as (Hin & Hu & Ha).
  pose proof (find_conv_id _ _ (proj1 Hwf) Hin) as Hfind.
  pose proof (closeConversation_wf st (conv_id c) now Hwf) as W.
  unfold Storage.closeConversation, Storage.getConversation in *. rewrite Hfind in *.
  simpl in *. split; [exact W|]. split; [|split; [reflexivity|split; [reflexivity|]]].
  - unfold oneActivePerUser. simpl. now apply map_set_inactive_NoDup.
  - split; [|split; [|split; [reflexivity|]]].
    + unfold Storage.getActiveConversationByUserId in *. simpl.
      eapply find_deactivated; eauto. apply Hwf.
    + intros v Hv. unfold Storage.getActiveConversationByUserId. simpl.
      match goal with
      | |- context [Storage.map_set ?c' _] =>
          apply (find_map_set_other _ _ _ _ c' Hfind eq_refl)
      end; simpl; [apply andb_false_r|].
      rewrite Hu. destruct (String.eqb_spec u v); congruence || reflexivity.
    + match goal with
      | |- context [Storage.map_set ?c' _] =>
          apply (find_conv_id (Storage.map_set c' (conversations st)) c')
      end.
      * apply W.
      * clear -Hin. induction (conversations st) as [|y r IH]; simpl; [auto|].
        destruct (conv_id y =? conv_id c) eqn:E; simpl; [auto|].
        destruct Hin as [->|Hin]; [rewrite Z.eqb_refl in E; discriminate|auto].
Qed.

End Closing.

(** ** Runs of context operations *)

Section Runs.

Implicit Types (st : MemStorage) (u v : string).

Lemma step_keeps s now st :
  Storage.wf st -> oneActivePerUser st ->
  Storage.wf (step s now st) /\ oneActivePerUser (step s now st).
Proof.
  intros Hwf Hone. split; [now apply step_wf|].
  destruct s as [m|f|u]; simpl.
  - now apply (touched_keeps _ _ _ _ Hwf (mutate_touched m now st Hwf)).
  - exact Hone.
  - now apply closeConversation_spec.
Qed.

Lemma run_keeps steps st :
  Storage.wf st -> oneActivePerUser st ->
  Storage.wf (run steps st) /\ oneActivePerUser (run steps st).
Proof.
  revert st. induction steps as [|[s now] steps IH]; intros st Hwf Hone; simpl; [auto|].
  destruct (step_keeps s now st Hwf Hone). now apply IH.
Qed.

Lemma NoDup_map_In_inj {A B : Type} (f : A -> B) (l : list A) (x y : A) :
  NoDup (map f l) -> In x l -> In y l -> f x = f y -> x = y.
Proof.
  induction l as [|z r IH]; simpl; [contradiction|].
  intros [Hz Hr]%NoDup_cons [->|Hx] [->|Hy] E; auto.
  - exfalso. apply Hz. rewrite E. now apply list_elem_of_In, in_map.
  - exfalso. apply Hz. rewrite <- E. now apply list_elem_of_In, in_map.
Qed.

Lemma touched_keeps_inactive u now st st' id x :
  Storage.wf st -> touched u now st st' ->
  Storage.getConversation id st = Some x -> conv_active x = false ->
  Storage.getConversation id st' = Some x.
Proof.
  intros Hwf Ht. revert x.
  induction Ht as [st|st c context Hact|st Hnone|st1 st2 st3 Ht1 IH1 _ IH2];
    intros x Hx Hoff.
  - exact Hx.
  - pose proof (active_spec _ _ _ Hact) as (Hin & _ & Ha).
    pose proof (find_conv_id _ _ (proj1 Hwf) Hin) as Hfind.
    unfold Storage.updateConversation, Storage.getConversation in *. rewrite Hfind. simpl.
    rewrite find_id_map_set_ne; [now rewrite Hx|]. simpl.
    intros ->. rewrite Hfind in Hx. congruence.
  - unfold Storage.createConversation, Storage.getConversation in *. simpl.
    rewrite map_set_fresh by apply Hwf. now rewrite find_app_or, Hx.
  - apply IH2; [apply (touched_keeps _ _ _ _ Hwf Ht1)|auto|exact Hoff].
Qed.

Lemma step_keeps_inactive s now st id x :
  Storage.wf st ->
  Storage.getConversation id st = Some x -> conv_active x = false ->
  Storage.getConversation id (step s now st) = Some x.
Proof.
  intros Hwf Hx Hoff. destruct s as [m|f|u]; simpl.
  - exact (touched_keeps_inactive _ _ _ _ _ _ Hwf (mutate_touched m now st Hwf) Hx Hoff).
  - exact Hx.
  - unfold Context.closeConversation.
    destruct (Storage.getActiveConversationByUserId u st) as [c|] eqn:Hact; [|exact Hx].
    pose proof (active_spec _ _ _ Hact) as (Hin & _ & Ha).
    pose proof (find_conv_id _ _ (proj1 Hwf) Hin) as Hfind.
    unfold Storage.closeConversation, Storage.getConversation in *. rewrite Hfind. simpl.
    rewrite find_id_map_set_ne; [now rewrite Hx|]. simpl.
    intros ->. rewrite Hfind in Hx. congruence.
Qed.

End Runs.

(** X1. Starting from a well-formed store in which no user has two active
    conversations, no sequence of appends, resizes, settings updates and
    closes ever gives a user two active conversations. *)
Theorem X1_one_active_conversation_per_user (st0 : MemStorage) (steps : list (Step * Z)) :
  Storage.wf st0 -> oneActivePerUser st0 ->
  let st := run steps st0 in
  oneActivePerUser st /\
  forall c1 c2,
    In c1 (conversations st) -> In c2 (conversations st) ->
    conv_active c1 = true -> conv_active c2 = true ->
    conv_userId c1 = conv_userId c2 -> c1 = c2.
Proof.
  intros Hwf Hone. cbv zeta.
  destruct (run_keeps steps st0 Hwf Hone) as [_ H]. split; [exact H|].
  intros c1 c2 H1 H2 A1 A2 E.
  apply (NoDup_map_In_inj conv_userId (List.filter conv_active (conversations (run steps st0))));
    auto; apply filter_In; auto.
Qed.

Lemma X1_one_active_conversation_witness :
  oneActivePerUser (run (Scenario.firstChat ++ Scenario.secondChat) Storage.empty).
Proof.
  apply (X1_one_active_conversation_per_user Storage.empty
           (Scenario.firstChat ++ Scenario.secondChat)).
  - split; simpl; constructor.
  - unfold oneActivePerUser. simpl. constructor.
Defined.

(** X2. Closing a user's conversation twice: the second call returns [false]
    and changes nothing; after the first call the user has no active
    conversation, and the first call returns [true] exactly when there was
    one. *)
Theorem X2_close_twice (st : MemStorage) (u : string) (now now' : Z) :
  Storage.wf st -> oneActivePerUser st ->
  let first := Context.closeConversation u now st in
  let second := Context.closeConversation u now' (snd first) in
  second = (false, snd first) /\
  Context.window u (snd first) = [] /\
  fst first = bool_decide (is_Some (Storage.getActiveConversationByUserId u st)).
Proof.
  intros Hwf Hone. cbv zeta.
  destruct (closeConversation_spec u now st Hwf Hone) as (_ & _ & _ & _ & Hnone & _ & H).
  split; [|split].
  - unfold Context.closeConversation at 1. now rewrite Hnone.
  - now apply window_inactive.
  - destruct (Storage.getActiveConversationByUserId u st) as [c|].
    + destruct H as [-> _]. reflexivity.
    + rewrite H. reflexivity.
Qed.

Lemma X2_close_twice_witness :
  let st := run (Scenario.firstChat ++ Scenario.secondChat) Storage.empty in
  let first := Context.closeConversation "u1" 6 st in
  fst first = true /\
  Context.closeConversation "u1" 7 (snd first) = (false, snd first).
Proof.
  pose proof (run_keeps (Scenario.firstChat ++ Scenario.secondChat) Storage.empty) as [W O].
  - split; simpl; constructor.
  - unfold oneActivePerUser. simpl. constructor.
  - destruct (X2_close_twice _ "u1" 6 7 W O) as (H2 & _ & H1).
    split; [exact H1|exact H2].
Defined.

(** X3. A context operation on behalf of one user leaves the active
    conversation of every other user, and so their window, as it was. *)
Theorem X3_context_operations_are_per_user
    (st : MemStorage) (s : Step) (now : Z) (v : string) :
  Storage.wf st -> oneActivePerUser st -> stepUser s <> Some v ->
  Storage.getActiveConversationByUserId v (step s now st) =
    Storage.getActiveConversationByUserId v st /\
  Context.window v (step s now st) = Context.window v st.
Proof.
  intros Hwf Hone Hv.
  assert (Storage.getActiveConversationByUserId v (step s now st) =
          Storage.getActiveConversationByUserId v st) as E.
  { destruct s as [m|f|u]; simpl in *.
    - apply (touched_keeps _ _ _ _ Hwf (mutate_touched m now st Hwf)). congruence.
    - reflexivity.
    - apply closeConversation_spec; auto. congruence. }
  split; [exact E|]. unfold Context.window. now rewrite E.
Qed.

Lemma X3_context_operations_witness :
  let st := run (Scenario.firstChat ++ Scenario.secondChat) Storage.empty in
  Context.window "u2" (step (Mutate (AppendUser Sample.hello)) 6 st) = Context.window "u2" st.
Proof.
  pose proof (run_keeps (Scenario.firstChat ++ Scenario.secondChat) Storage.empty) as [W O].
  - split; simpl; constructor.
  - unfold oneActivePerUser. simpl. constructor.
  - apply (X3_context_operations_are_per_user _ (Mutate (AppendUser Sample.hello)) 6 "u2" W O).
    discriminate.
Defined.

(** X4. A conversation that has been closed is never changed again: whatever
    appends, resizes, settings updates and closes follow, looking it up by id
    returns the same record. *)
Theorem X4_closed_conversations_are_kept
    (st0 : MemStorage) (steps : list (Step * Z)) (id : Z) (x : Conversation) :
  Storage.wf st0 ->
  Storage.getConversation id st0 = Some x -> conv_active x = false ->
  Storage.getConversation id (run steps st0) = Some x.
Proof.
  revert st0. induction steps as [|[s now] steps IH]; intros st0 Hwf Hx Hoff; simpl.
  - exact Hx.
  - apply IH; [now apply step_wf| |exact Hoff]. now apply step_keeps_inactive.
Qed.

Lemma X4_closed_conversations_witness :
  Storage.getConversation 1
    (run Scenario.secondChat (run Scenario.firstChat Storage.empty)) =
  Some Scenario.closedChat.
Proof.
  apply X4_closed_conversations_are_kept.
  - apply run_wf. split; simpl; constructor.
  - reflexivity.
  - reflexivity.
Defined.

Section ReadingBack.

Lemma slice_mostRecent {A : Type} (n : Z) (l : list A) :
  1 <= n -> JS.slice (- n) l = mostRecent (Z.to_nat n) l.
Proof.
  intros Hn. unfold JS.slice, mostRecent.
  destruct (Z.ltb_spec (- n) 0); [|lia]. f_equal. lia.
Qed.

Lemma mostRecent_nil {A : Type} (n : nat) : mostRecent n (@nil A) = [].
Proof. reflexivity. Qed.

End ReadingBack.

(** X5. With context awareness on and a context size in effect of at least 1,
    [getContext] returns the most recent [contextSize] messages of the stored
    window (all of them when there are fewer); it leaves the stored window as it
    is, creates an empty active conversation when the user has none, and
    otherwise does not change the store. *)
Theorem X5_getContext_returns_most_recent
    (st : MemStorage) (bs : BotSettings) (u : string) (now : Z) :
  Storage.wf st ->
  botSettings st = Some bs -> contextAwareness bs = true ->
  1 <= Context.sizeInEffect st ->
  let r := Context.getContext u now st in
  fst r = mostRecent (Z.to_nat (Context.sizeInEffect st)) (Context.window u st) /\
  Z.of_nat (length (fst r)) <= Context.sizeInEffect st /\
  Context.window u (snd r) = Context.window u st /\
  is_Some (Storage.getActiveConversationByUserId u (snd r)) /\
  (is_Some (Storage.getActiveConversationByUserId u st) -> snd r = st).
Proof.
  intros Hwf Hbs Hca Hsize. cbv zeta.
  pose proof (mostRecent_length (Z.to_nat (Context.sizeInEffect st)) (Context.window u st)) as Hlen.
  rewrite (sizeInEffect_settings _ _ Hbs) in *.
  unfold Context.getContext, Storage.getBotSettings. rewrite Hbs, Hca. simpl negb. cbv iota.
  destruct (Storage.getActiveConversationByUserId u st) as [c|] eqn:Hact.
  - rewrite (window_active _ _ _ Hact) in *. cbn [fst snd].
    rewrite Hact.
    assert (match conv_context c with
            | CtxArray context =>
                JS.slice (- JS.or_elseZ (contextSize bs) Context.DEFAULT_CONTEXT_SIZE) context
            | CtxOther => []
            end =
            mostRecent (Z.to_nat (JS.or_elseZ (contextSize bs) Context.DEFAULT_CONTEXT_SIZE))
              match conv_context c with CtxArray context => context | CtxOther => [] end) as E.
    { destruct (conv_context c); [now apply slice_mostRecent|reflexivity]. }
    rewrite E. split; [reflexivity|]. split; [lia|].
    split; [apply (window_active _ _ _ Hact)|]. split; [eauto|reflexivity].
  - rewrite (window_inactive _ _ Hact).
    destruct (createConversation_active u st now Hwf Hact) as (_ & A & C & _).
    destruct (Storage.createConversation _ now st) as [c0 st1]. cbn [fst snd] in *.
    rewrite C, (window_active _ _ _ A), C, A.
    rewrite slice_mostRecent by assumption. rewrite !mostRecent_nil.
    split; [reflexivity|]. split; [cbn; lia|]. split; [reflexivity|].
    split; [eauto|]. intros [? [=]].
Qed.

Lemma X5_getContext_witness :
  length (Context.window "u1" Scenario.smallWindow) = 2%nat /\
  fst (Context.getContext "u1" 9 Scenario.smallWindow) =
    [mkContextMessage assistant "Hello there!" 2].
Proof.
  split; [reflexivity|].
  refine (proj1 (X5_getContext_returns_most_recent Scenario.smallWindow Scenario.sizeOne
                   "u1" 9 _ eq_refl eq_refl _)).
  - apply run_wf. split; simpl; constructor.
  - vm_compute. discriminate.
Defined.

Section FreshConversation.

(** The conversation that [addUserMessage] creates for a user without one. *)
Lemma addUserMessage_fresh message now st bs :
  Storage.wf st -> botSettings st = Some bs -> contextAwareness bs = true ->
  Storage.getActiveConversationByUserId (author_id message) st = None ->
  Storage.getActiveConversationByUserId (author_id message)
    (Context.addUserMessage message now st) =
  Some (mkConversation (currentConversationId st) (author_id message)
          (CtxArray (limited (Context.sizeInEffect st)
                       [mkContextMessage user (content message) now]))
          true now now).
Proof.
  intros Hwf Hbs Hca Hnone.
  rewrite (sizeInEffect_settings _ _ Hbs).
  unfold Context.addUserMessage, Storage.getBotSettings. rewrite Hbs, Hca, Hnone.
  simpl negb. cbv iota.
  destruct (createConversation_active _ _ now Hwf Hnone) as (W1 & A1 & _).
  unfold Storage.createConversation in *. cbn [fst snd] in *. cbv zeta beta iota.
  cbn [conv_context conv_id ins_context ins_userId ins_active].
  match goal with
  | |- context [Storage.updateConversation ?i ?ctx _ ?s] =>
      pose proof (updateConversation_active _ _ _ ctx now W1 A1) as (_ & A & _)
  end.
  exact A.
Qed.

End FreshConversation.

(** X6. After a user's conversation is closed, the user's next message starts
    a new conversation: it gets the next id of the counter, its window holds
    that message only, and the closed conversation stays in the store with its
    window intact. *)
Theorem X6_message_after_close_starts_new_conversation
    (st : MemStorage) (bs : BotSettings) (message : Message) (c : Conversation)
    (now now' : Z) :
  Storage.wf st -> oneActivePerUser st ->
  botSettings st = Some bs -> contextAwareness bs = true ->
  1 <= Context.sizeInEffect st ->
  Storage.getActiveConversationByUserId (author_id message) st = Some c ->
  let u := author_id message in
  let st1 := snd (Context.closeConversation u now st) in
  let st2 := Context.addUserMessage message now' st1 in
  Storage.getActiveConversationByUserId u st2 =
    Some (mkConversation (currentConversationId st) u
            (CtxArray [mkContextMessage user (content message) now']) true now' now') /\
  conv_id c <> currentConversationId st /\
  Storage.getConversation (conv_id c) st2 =
    Some (mkConversation (conv_id c) (conv_userId c) (conv_context c) false now
                         (conv_createdAt c)).
Proof.
  intros Hwf Hone Hbs Hca Hsize Hact. cbv zeta.
  destruct (closeConversation_spec (author_id message) now st Hwf Hone)
    as (W1 & _ & B1 & N1 & A1 & _ & H). rewrite Hact in H. destruct H as [_ Hclosed].
  set (st1 := snd (Context.closeConversation (author_id message) now st)) in *.
  rewrite <- B1 in Hbs.
  split; [|split].
  - rewrite (addUserMessage_fresh message now' st1 bs W1 Hbs Hca A1), N1.
    assert (Context.sizeInEffect st1 = Context.sizeInEffect st) as ->.
    { unfold Context.sizeInEffect, Storage.getBotSettings. now rewrite B1. }
    rewrite limited_mostRecent by assumption.
    unfold mostRecent. simpl length.
    replace (1 - Z.to_nat (2 * Context.sizeInEffect st))%nat with 0%nat by lia.
    reflexivity.
  - pose proof (active_spec _ _ _ Hact) as (Hin & _).
    destruct Hwf as [_ Hlt]. rewrite Forall_forall in Hlt.
    apply list_elem_of_In, Hlt in Hin. lia.
  - apply (step_keeps_inactive (Mutate (AppendUser message)) now' st1 _ _ W1 Hclosed).
    reflexivity.
Qed.

Lemma X6_message_after_close_witness :
  let st := run [(Mutate (AppendUser Sample.hello), 1)] Storage.empty in
  let st2 := Context.addUserMessage Sample.hello 3
               (snd (Context.closeConversation "u1" 2 st)) in
  Storage.getActiveConversationByUserId "u1" st2 =
    Some (mkConversation 2 "u1" (CtxArray [mkContextMessage user "hello" 3]) true 3 3) /\
  Storage.getConversation 1 st2 =
    Some (mkConversation 1 "u1" (CtxArray [mkContextMessage user "hello" 1]) false 2 1).
Proof.
  pose proof (run_keeps [(Mutate (AppendUser Sample.hello), 1)] Storage.empty) as [W O].
  - split; simpl; constructor.
  - unfold oneActivePerUser. simpl. constructor.
  - destruct (X6_message_after_close_starts_new_conversation _ Storage.defaultSettings
                Sample.hello
                (mkConversation 1 "u1" (CtxArray [mkContextMessage user "hello" 1]) true 1 1)
                2 3 W O eq_refl eq_refl) as (H1 & _ & H3).
    + vm_compute. discriminate.
    + reflexivity.
    + split; [exact H1|exact H3].
Defined.

(** ** Replies *)

Section ReplyFacts.

Lemma lower_ascii_idempotent (c : ascii) : JS.lower_ascii (JS.lower_ascii c) = JS.lower_ascii c.
Proof. destruct c as [[] [] [] [] [] [] [] []]; reflexivity. Qed.

Lemma toLowerCase_idempotent (s : string) : JS.toLowerCase (JS.toLowerCase s) = JS.toLowerCase s.
Proof. induction s as [|c s IH]; simpl; [reflexivity|]. now rewrite lower_ascii_idempotent, IH. Qed.

Lemma or_else_nonempty (a b : string) : b <> "" -> JS.or_else a b <> "".
Proof. intros Hb. unfold JS.or_else. now destruct a. Qed.

Lemma replyText_nonempty message env w : replyText message env w <> "".
Proof.
  unfold replyText.
  destruct (useOpenAI w); [|apply getFallbackResponse_nonempty].
  destruct (completions env _); [|apply getFallbackResponse_nonempty].
  now apply or_else_nonempty.
Qed.

End ReplyFacts.

(** X7. The fallback matcher ignores letter case: a prompt and its
    lower-cased form get the same answer, and so do two prompts that differ
    only in the case of their letters. *)
Theorem X7_fallback_answer_ignores_case (p q : string) :
  NLP.getFallbackResponse (JS.toLowerCase p) = NLP.getFallbackResponse p /\
  (JS.toLowerCase p = JS.toLowerCase q ->
   NLP.getFallbackResponse p = NLP.getFallbackResponse q).
Proof.
  split.
  - unfold NLP.getFallbackResponse. now rewrite toLowerCase_idempotent.
  - intros E. unfold NLP.getFallbackResponse. now rewrite E.
Qed.

Lemma X7_fallback_answer_witness :
  NLP.getFallbackResponse "Tell me a JOKE" = NLP.getFallbackResponse "tell me a joke".
Proof.
  apply (proj2 (X7_fallback_answer_ignores_case "Tell me a JOKE" "tell me a joke")).
  reflexivity.
Defined.

(** X8. [generateResponse] always resolves, and never with the empty string:
    in fallback mode, on a backend error, on an empty completion and on a
    normal completion alike. *)
Theorem X8_generateResponse_answers_nonempty (prompt : string) (env : Env) (w : World) :
  exists text w',
    NLP.generateResponse prompt env w = (Ok text, w') /\ text <> "".
Proof.
  rewrite generateResponse_run.
  destruct (useOpenAI w); cbv zeta.
  - destruct (completions env (length (trace w))) as [c|e].
    + do 2 eexists. split; [reflexivity|]. now apply or_else_nonempty.
    + do 2 eexists. split; [reflexivity|]. apply getFallbackResponse_nonempty.
  - do 2 eexists. split; [reflexivity|]. apply getFallbackResponse_nonempty.
Qed.

(** X9. [processNaturalLanguage] never rejects and always answers: it sends
    one reply, whose text is never empty, and only if that reply is rejected
    it sends the apology as a second and last reply. *)
Theorem X9_processNaturalLanguage_always_replies (message : Message) (env : Env) (w : World) :
  let out := NLP.processNaturalLanguage message env w in
  fst out = Ok tt /\
  replyText message env w <> "" /\
  List.filter isReply (newEvents w (snd out)) =
    Reply (replyText message env w)
      :: match gateway env (replyPosition w) with
         | None => []
         | Some _ => [Reply NLP.APOLOGY]
         end.
Proof.
  cbv zeta.
  destruct (processNaturalLanguage_run message env w) as (w' & R & _ & _ & _ & T & _).
  rewrite R. cbn [fst snd]. split; [reflexivity|]. split; [apply replyText_nonempty|].
  unfold newEvents. rewrite T, drop_app_length. unfold requestFor.
  destruct (useOpenAI w); destruct (gateway env (replyPosition w)); reflexivity.
Qed.

(** ** The context that a reply is generated from *)

Section RequestFacts.

Implicit Types (env : Env) (w : World) (message : Message).

(** The store and the window read back once the user turn is recorded, with
    context awareness on. *)
Lemma afterUserTurn_on message env w bs :
  Storage.wf (storage w) ->
  botSettings (storage w) = Some bs -> contextAwareness bs = true ->
  1 <= Context.sizeInEffect (storage w) ->
  let u := author_id message in
  let size := Z.to_nat (Context.sizeInEffect (storage w)) in
  let turn := mkContextMessage user (content message) (dateNow env (length (trace w))) in
  let kept := mostRecent (2 * size - 1) (Context.window u (storage w)) in
  exists c,
    Storage.wf (snd (afterUserTurn message env w)) /\
    botSettings (snd (afterUserTurn message env w)) = Some bs /\
    Storage.getActiveConversationByUserId u (snd (afterUserTurn message env w)) = Some c /\
    conv_context c = CtxArray (kept ++ [turn]) /\
    fst (afterUserTurn message env w) = mostRecent (size - 1) kept ++ [turn].
Proof.
  intros Hwf Hbs Hca Hsize. cbv zeta. unfold afterUserTurn.
  set (now := dateNow env (length (trace w))).
  destruct (addUserMessage_spec message now (storage w) bs Hwf Hbs Hca)
    as (W1 & B1 & c & A1 & C1).
  set (st1 := Context.addUserMessage message now (storage w)) in *.
  rewrite limited_mostRecent, mostRecent_snoc in C1 by lia.
  replace (Z.to_nat (2 * Context.sizeInEffect (storage w)) - 1)%nat
    with (2 * Z.to_nat (Context.sizeInEffect (storage w)) - 1)%nat in C1 by lia.
  exists c. rewrite (getContext_store _ now _ _ A1).
  split; [exact W1|]. split; [congruence|]. split; [exact A1|]. split; [exact C1|].
  unfold Context.getContext, Storage.getBotSettings.
  rewrite B1, Hbs, Hca, A1, C1. simpl negb. cbv iota. cbn [fst].
  assert (Context.sizeInEffect (storage w) =
          JS.or_elseZ (contextSize bs) Context.DEFAULT_CONTEXT_SIZE) as <-
    by apply (sizeInEffect_settings _ _ Hbs).
  rewrite slice_mostRecent by assumption. apply mostRecent_snoc. lia.
Qed.

(** The same with context awareness off: nothing is recorded or read. *)
Lemma afterUserTurn_off message env w :
  (forall bs, botSettings (storage w) = Some bs -> contextAwareness bs = false) ->
  afterUserTurn message env w = ([], storage w).
Proof.
  intros Hoff.
  unfold afterUserTurn, Context.getContext, Context.addUserMessage, Storage.getBotSettings.
  destruct (botSettings (storage w)) as [bs|] eqn:Hbs.
  - rewrite (Hoff bs eq_refl). simpl. rewrite Hbs, (Hoff bs eq_refl). reflexivity.
  - simpl. now rewrite Hbs.
Qed.

End RequestFacts.

(** X10. With context awareness on (context size in effect at least 1), a run
    of [processNaturalLanguage] records the user's turn whatever the backend
    and the gateway answer: the stored window ends with the user turn followed
    by the assistant turn when the reply was delivered, and with the user turn
    alone when the reply was rejected. *)
Theorem X10_user_turn_is_always_recorded
    (message : Message) (env : Env) (w : World) (bs : BotSettings) :
  Storage.wf (storage w) ->
  botSettings (storage w) = Some bs -> contextAwareness bs = true ->
  1 <= Context.sizeInEffect (storage w) ->
  let w' := snd (NLP.processNaturalLanguage message env w) in
  let turn := mkContextMessage user (content message) (dateNow env (length (trace w))) in
  exists earlier,
    Context.window (author_id message) (storage w') =
      earlier ++ turn
        :: match gateway env (replyPosition w) with
           | None => [mkContextMessage assistant (replyText message env w)
                        (dateNow env (S (replyPosition w)))]
           | Some _ => []
           end.
Proof.
  intros Hwf Hbs Hca Hsize. cbv zeta.
  destruct (processNaturalLanguage_run message env w) as (w' & R & _ & _ & _ & _ & St).
  rewrite R. cbn [snd]. rewrite St.
  destruct (afterUserTurn_on message env w bs Hwf Hbs Hca Hsize)
    as (c & W1 & B1 & A1 & C1 & _).
  destruct (gateway env (replyPosition w)).
  - rewrite (window_active _ _ _ A1), C1. eexists. reflexivity.
  - match goal with
    | |- context [Context.addBotMessage ?u ?t ?n ?st1] =>
        destruct (addBotMessage_active u t n st1 bs c W1 B1 Hca A1) as (_ & _ & _ & A)
    end.
    rewrite (window_active _ _ _ A). cbn [withContext conv_context].
    rewrite (window_active _ _ _ A1), C1.
    assert (Context.sizeInEffect (snd (afterUserTurn message env w)) =
            Context.sizeInEffect (storage w)) as ->.
    { unfold Context.sizeInEffect, Storage.getBotSettings. now rewrite B1, Hbs. }
    rewrite limited_mostRecent, mostRecent_snoc, mostRecent_snoc by lia.
    rewrite <- app_assoc. eexists. reflexivity.
Qed.

Lemma X10_user_turn_witness :
  exists earlier,
    Context.window "u1"
      (storage (snd (NLP.processNaturalLanguage Sample.hello Sample.hostile Sample.world))) =
    earlier ++ [mkContextMessage user "hello" 0].
Proof.
  refine (X10_user_turn_is_always_recorded Sample.hello Sample.hostile Sample.world
            Storage.defaultSettings _ eq_refl eq_refl _).
  - split; simpl; constructor.
  - vm_compute. discriminate.
Defined.

(** X11. With context awareness off, the request that a live run of
    [processNaturalLanguage] sends to the backend holds the system instruction
    only: the content of the user's message is not part of it, and nothing is
    stored. *)
Theorem X11_request_without_context_awareness (message : Message) (env : Env) (w : World) :
  useOpenAI w = true ->
  (forall bs, botSettings (storage w) = Some bs -> contextAwareness bs = false) ->
  let w' := snd (NLP.processNaturalLanguage message env w) in
  conversations (storage w') = conversations (storage w) /\
  exists model temperature max_tokens tail,
    newEvents w w' =
      SendTyping
        :: ChatCompletionsCreate model [("system", Context.SYSTEM_PROMPT)]
             temperature max_tokens
        :: tail.
Proof.
  intros Hlive Hoff. cbv zeta.
  destruct (processNaturalLanguage_run message env w) as (w' & R & _ & _ & _ & T & St).
  rewrite R. cbn [snd]. unfold newEvents. rewrite T, drop_app_length, St, Hlive.
  unfold requestFor. rewrite (afterUserTurn_off message env w Hoff). cbn [fst snd].
  split.
  - destruct (gateway env (replyPosition w)); [reflexivity|].
    unfold Context.addBotMessage, Storage.getBotSettings.
    destruct (botSettings (storage w)) as [bs|] eqn:Hbs; [|reflexivity].
    now rewrite (Hoff bs eq_refl).
  - do 4 eexists. reflexivity.
Qed.

Lemma X11_request_witness :
  exists model temperature max_tokens tail,
    newEvents Scenario.unaware
      (snd (NLP.processNaturalLanguage Sample.hello Sample.quiet Scenario.unaware)) =
      SendTyping
        :: ChatCompletionsCreate model [("system", Context.SYSTEM_PROMPT)]
             temperature max_tokens
        :: tail.
Proof.
  refine (proj2 (X11_request_without_context_awareness Sample.hello Sample.quiet
                   Scenario.unaware eq_refl _)).
  intros bs [= <-]. reflexivity.
Defined.

(** X12. With context awareness on (context size in effect at least 1), the
    request that a live run sends to the backend starts with the system
    instruction and ends with the user's message, with fewer than
    [contextSize] earlier turns in between. *)
Theorem X12_request_ends_with_user_message
    (message : Message) (env : Env) (w : World) (bs : BotSettings) :
  useOpenAI w = true ->
  Storage.wf (storage w) ->
  botSettings (storage w) = Some bs -> contextAwareness bs = true ->
  1 <= Context.sizeInEffect (storage w) ->
  let w' := snd (NLP.processNaturalLanguage message env w) in
  exists model earlier temperature max_tokens tail,
    newEvents w w' =
      SendTyping
        :: ChatCompletionsCreate model
             (("system", Context.SYSTEM_PROMPT) :: earlier ++ [("user", content message)])
             temperature max_tokens
        :: tail /\
    Z.of_nat (length earlier) < Context.sizeInEffect (storage w).
Proof.
  intros Hlive Hwf Hbs Hca Hsize. cbv zeta.
  destruct (processNaturalLanguage_run message env w) as (w' & R & _ & _ & _ & T & _).
  rewrite R. cbn [snd]. unfold newEvents. rewrite T, drop_app_length, Hlive.
  destruct (afterUserTurn_on message env w bs Hwf Hbs Hca Hsize) as (c & _ & _ & _ & _ & F).
  unfold requestFor. rewrite F. unfold Context.formatContextForNLP.
  rewrite map_app. cbn [map cm_role cm_content Role_to_string].
  do 5 eexists. split; [reflexivity|].
  rewrite length_map.
  match goal with
  | |- context [mostRecent ?n ?l] => pose proof (mostRecent_length n l)
  end. lia.
Qed.

Lemma X12_request_witness :
  exists model earlier temperature max_tokens tail,
    newEvents Sample.world
      (snd (NLP.processNaturalLanguage Sample.hello Sample.quiet Sample.world)) =
      SendTyping
        :: ChatCompletionsCreate model
             (("system", Context.SYSTEM_PROMPT) :: earlier ++ [("user", "hello")])
             temperature max_tokens
        :: tail /\
    Z.of_nat (length earlier) < 5.
Proof.
  refine (X12_request_ends_with_user_message Sample.hello Sample.quiet Sample.world
            Storage.defaultSettings eq_refl _ eq_refl eq_refl _).
  - split; simpl; constructor.
  - vm_compute. discriminate.
Defined.

(** ** Sentiment *)

Section SentimentFacts.

Lemma round_half (k : Z) : JSNum.round (inject_Z k / 2) = (k + 1) / 2.
Proof.
  unfold JSNum.round, Qfloor, Qdiv, Qmult, Qinv, Qplus, inject_Z. simpl.
  change ((k * 1 * 2 + 1 * 2) / (2 * 2) = (k + 1) / 2).
  replace (k * 1 * 2 + 1 * 2) with ((k + 1) * 2) by lia.
  apply Z.div_mul_cancel_r; lia.
Qed.

End SentimentFacts.

(** X13. The fallback sentiment rating is a whole number of stars from 1 to
    5: it is 3 exactly when as many positive as negative keywords occur,
    and otherwise moves away from 3 by half the difference of the two counts,
    halves rounded up, so at least 4 when positive keywords prevail and at
    most 2 when negative ones do. *)
Theorem X13_fallback_sentiment_rating (text : string) :
  let p := keywordHits NLP.positiveWords text in
  let n := keywordHits NLP.negativeWords text in
  let stars := NLP.rating (NLP.getFallbackSentiment text) in
  stars = (if p >? n then Z.min 5 (3 + (p - n + 1) / 2)
           else if n >? p then Z.max 1 (3 - (n - p + 1) / 2)
           else 3) /\
  1 <= stars <= 5 /\
  (stars = 3 <-> p = n) /\
  (p > n -> 4 <= stars) /\
  (p < n -> stars <= 2).
Proof.
  cbv zeta. unfold NLP.getFallbackSentiment. cbv zeta.
  change (Z.of_nat (length (List.filter (JS.includes (JS.toLowerCase text)) NLP.positiveWords)))
    with (keywordHits NLP.positiveWords text).
  change (Z.of_nat (length (List.filter (JS.includes (JS.toLowerCase text)) NLP.negativeWords)))
    with (keywordHits NLP.negativeWords text).
  set (p := keywordHits NLP.positiveWords text).
  set (n := keywordHits NLP.negativeWords text).
  destruct (Z.gtb_spec p n) as [Hpn|Hpn]; [|destruct (Z.gtb_spec n p) as [Hnp|Hnp]];
    cbn [NLP.rating]; rewrite ?round_half.
  - assert (1 <= (p - n + 1) / 2) by (apply Z.div_le_lower_bound; lia). lia.
  - assert (1 <= (n - p + 1) / 2) by (apply Z.div_le_lower_bound; lia). lia.
  - lia.
Qed.

(** ** Moderation effects and the moderation log *)

Section ModerationMore.

Implicit Types (env : Env) (w : World) (message : Message).

Lemma executeModerationAction_events message action reason env w :
  newEvents w (snd (Moderation.executeModerationAction message action reason env w)) =
    moderationEffects message action reason env (length (trace w)).
Proof.
  unfold newEvents, moderationEffects, Moderation.executeModerationAction.
  destruct action; destruct (inGuild message);
    cbv beta iota zeta delta [bind try_catch discord consoleLine ret].
  1,2: cbn [snd]; apply drop_all.
  all: repeat answer.
  all: positions; rewrite <- ?app_assoc; apply drop_app_length.
Qed.

End ModerationMore.

Section ModerationLog.

Implicit Types (env : Env) (w : World) (message : Message).

Lemma newEvents_app w w' evs : trace w' = trace w ++ evs -> newEvents w w' = evs.
Proof. intros E. unfold newEvents. rewrite E. apply drop_app_length. Qed.

Lemma newEvents_trace w w' :
  (exists evs, trace w' = trace w ++ evs) -> trace w' = trace w ++ newEvents w w'.
Proof. intros [evs E]. now rewrite (newEvents_app _ _ _ E). Qed.

(** The calls of a run of [moderateMessage]. *)
Lemma moderateMessage_events message env w :
  newEvents w (snd (Moderation.moderateMessage message env w)) =
    if scorerConsulted message w then
      ModerationsCreate (content message) ::
      match moderations env (length (trace w)) with
      | Ok (results :: _) =>
          moderationEffects message (policy results) (Moderation.reasonOf results) env
                            (S (length (trace w)))
      | _ => []
      end
    else [].
Proof.
  destruct (scorerConsulted message w) eqn:Hon.
  2:{ rewrite (moderateMessage_skipped _ _ _ Hon). apply drop_all. }
  destruct (moderations env (length (trace w))) as [[|results rest]|e] eqn:Hscore.
  1,3: rewrite moderateMessage_failed by (assumption || (intros ? ?; congruence));
       now apply newEvents_app.
  rewrite (moderateMessage_scored _ _ _ _ _ Hon Hscore).
  assert (forall action,
            newEvents w (snd (Moderation.executeModerationAction message action
                                (Moderation.reasonOf results) env
                                (afterRecord message action results env w))) =
            ModerationsCreate (content message)
              :: moderationEffects message action (Moderation.reasonOf results) env
                   (S (length (trace w)))) as H.
  { intros action.
    destruct (executeModerationAction_frame message action (Moderation.reasonOf results) env
                (afterRecord message action results env w)) as (w' & R & _ & _ & Hext).
    pose proof (executeModerationAction_events message action (Moderation.reasonOf results)
                  env (afterRecord message action results env w)) as Hev.
    rewrite R in *. cbn [snd] in *.
    apply newEvents_app. rewrite (newEvents_trace _ _ Hext), Hev.
    unfold afterRecord. cbn [trace set_storage emit]. rewrite length_app. cbn [length].
    rewrite Nat.add_1_r, <- app_assoc. reflexivity. }
  destruct (policy_cases results) as [E|[E|E]]; rewrite E; cbn [snd].
  - now apply newEvents_app.
  - apply H.
  - apply H.
Qed.

(** The store after a run of [moderateMessage]. *)
Lemma moderateMessage_store message env w :
  let st' := storage (snd (Moderation.moderateMessage message env w)) in
  st' = storage w \/
  exists record,
    st' = snd (Storage.createModerationAction record
                 (dateNow env (S (length (trace w)))) (storage w)).
Proof.
  cbv zeta. destruct (scorerConsulted message w) eqn:Hon.
  2:{ rewrite (moderateMessage_skipped _ _ _ Hon). now left. }
  destruct (moderations env (length (trace w))) as [[|results rest]|e] eqn:Hscore.
  1,3: rewrite moderateMessage_failed by (assumption || (intros ? ?; congruence)); now left.
  rewrite (moderateMessage_scored _ _ _ _ _ Hon Hscore).
  assert (forall action,
            storage (snd (Moderation.executeModerationAction message action
                            (Moderation.reasonOf results) env
                            (afterRecord message action results env w))) =
            storage (afterRecord message action results env w)) as H.
  { intros action.
    destruct (executeModerationAction_frame message action (Moderation.reasonOf results) env
                (afterRecord message action results env w)) as (w' & R & Hst & _).
    now rewrite R. }
  destruct (policy results); cbn [snd]; [now left|right..]; rewrite H;
    unfold afterRecord; cbn [storage set_storage emit trace];
    rewrite length_app; cbn [length]; rewrite Nat.add_1_r; eexists; reflexivity.
Qed.

Lemma createModerationAction_keeps record now st :
  actionsNumbered st ->
  let st' := snd (Storage.createModerationAction record now st) in
  actionsNumbered st' /\
  (forall id r, moderationActions st !! id = Some r -> moderationActions st' !! id = Some r) /\
  moderationActions st' !! currentModerationActionId st =
    Some (mkModerationAction (currentModerationActionId st) (ima_userId record)
            (ima_type record) (ima_reason record) now) /\
  conversations st' = conversations st /\ botSettings st' = botSettings st.
Proof.
  intros Hnum. cbv zeta. unfold Storage.createModerationAction. cbn.
  split; [|split; [|split; [apply lookup_insert_eq|auto]]].
  - intros id r. unfold actionsNumbered in Hnum. cbn.
    destruct (decide (currentModerationActionId st = id)) as [<-|Hne].
    + lia.
    + rewrite lookup_insert_ne by exact Hne. intros H%Hnum. lia.
  - intros id r H. pose proof (Hnum _ _ H).
    rewrite lookup_insert_ne by lia. exact H.
Qed.

End ModerationLog.

(** X14. [executeModerationAction] never rejects and never touches the
    store. For every action but [none] it first tries to delete the message,
    and goes on in the same way whether or not the delete succeeded: a
    warning sends the private notice; a mute in a guild sets a 10-minute
    timeout and sends the notice only if the timeout was accepted; a mute
    outside a guild does nothing more. *)
Theorem X14_moderation_effects
    (message : Message) (action : Moderation.Action) (reason : string)
    (env : Env) (w : World) :
  let out := Moderation.executeModerationAction message action reason env w in
  fst out = Ok tt /\
  storage (snd out) = storage w /\
  newEvents w (snd out) = moderationEffects message action reason env (length (trace w)).
Proof.
  cbv zeta.
  pose proof (executeModerationAction_events message action reason env w) as Hev.
  destruct (executeModerationAction_frame message action reason env w) as (w' & R & Hst & _).
  rewrite R in *. auto.
Qed.

(** X15. Automatic moderation never removes a member: the answer of
    [moderateMessage] is [none], [warn] or [mute], never [kick] or [ban], and
    no kick or ban call is made. *)
Theorem X15_moderateMessage_never_kicks_or_bans (message : Message) (env : Env) (w : World) :
  let out := Moderation.moderateMessage message env w in
  (exists r,
     fst out = Ok r /\
     (Moderation.action r = Moderation.none \/ Moderation.action r = Moderation.warn \/
      Moderation.action r = Moderation.mute)) /\
  List.filter isRemoval (newEvents w (snd out)) = [].
Proof.
  cbv zeta. split.
  - destruct (scorerConsulted message w) eqn:Hon.
    2:{ rewrite (moderateMessage_skipped _ _ _ Hon). eauto. }
    destruct (moderations env (length (trace w))) as [[|results rest]|e] eqn:Hscore.
    1,3: rewrite moderateMessage_failed by (assumption || (intros ? ?; congruence)); eauto.
    rewrite (moderateMessage_scored _ _ _ _ _ Hon Hscore).
    destruct (policy_cases results) as [E|[E|E]]; rewrite E; eauto.
  - rewrite moderateMessage_events.
    destruct (scorerConsulted message w); [|reflexivity].
    destruct (moderations env (length (trace w))) as [[|results rest]|e]; try reflexivity.
    unfold moderationEffects.
    destruct (policy_cases results) as [E|[E|E]]; rewrite E; try reflexivity.
    destruct (inGuild message); [|reflexivity].
    destruct (gateway env _); reflexivity.
Qed.

(** X16. The moderation log only grows: when every stored record carries an
    id below the counter, a run of [moderateMessage] keeps that so, leaves
    every stored record as it was, and changes neither the conversations nor
    the settings. *)
Theorem X16_moderation_log_only_grows (message : Message) (env : Env) (w : World) :
  actionsNumbered (storage w) ->
  let st' := storage (snd (Moderation.moderateMessage message env w)) in
  actionsNumbered st' /\
  (forall id r,
     moderationActions (storage w) !! id = Some r -> moderationActions st' !! id = Some r) /\
  conversations st' = conversations (storage w) /\
  botSettings st' = botSettings (storage w).
Proof.
  intros Hnum. cbv zeta.
  destruct (moderateMessage_store message env w) as [->|[record ->]].
  - auto.
  - destruct (createModerationAction_keeps record (dateNow env (S (length (trace w))))
                (storage w) Hnum) as (H1 & H2 & _ & H3 & H4).
    auto.
Qed.

Lemma X16_moderation_log_witness :
  let w1 := snd (Moderation.moderateMessage Sample.rude Sample.quiet Sample.world) in
  let w2 := snd (Moderation.moderateMessage Sample.rude Sample.hostile w1) in
  moderationActions (storage w2) !! 1 =
    Some (recordFor Sample.rude Moderation.warn Sample.borderline 1 1).
Proof.
  cbv zeta.
  refine (proj1 (proj2 (X16_moderation_log_only_grows Sample.rude Sample.hostile
                   (snd (Moderation.moderateMessage Sample.rude Sample.quiet Sample.world)) _))
            1 _ _).
  - intros id r. vm_compute currentModerationActionId.
    destruct (decide (id = 1)) as [->|Hne]; [lia|].
    intros H. exfalso. revert H.
    change (moderationActions
              (storage (snd (Moderation.moderateMessage Sample.rude Sample.quiet Sample.world))))
      with (<[1 := recordFor Sample.rude Moderation.warn Sample.borderline 1 1]>
              (∅ : gmap Z ModerationAction)).
    rewrite lookup_insert_ne by congruence. rewrite lookup_empty. discriminate.
  - reflexivity.
Defined.

(** X17. Manual moderation only writes the log: [moderateUser] answers [true],
    stores one record under the current value of the counter, keeps the
    records already stored, and makes no Discord call, whatever the action. *)
Theorem X17_moderateUser_only_logs
    (userId reason : string) (action : Moderation.Action) (env : Env) (w : World) :
  actionsNumbered (storage w) ->
  let out := Moderation.moderateUser userId action reason env w in
  let id := currentModerationActionId (storage w) in
  fst out = Ok true /\
  trace (snd out) = trace w /\
  moderationActions (storage (snd out)) !! id =
    Some (mkModerationAction id userId (Moderation.Action_to_string action) reason
            (dateNow env (length (trace w)))) /\
  (forall id' r,
     moderationActions (storage w) !! id' = Some r ->
     moderationActions (storage (snd out)) !! id' = Some r).
Proof.
  intros Hnum. cbv zeta.
  cbv beta iota zeta delta [Moderation.moderateUser try_catch bind newDate onStorage ret].
  destruct (createModerationAction_keeps
              (mkInsertModerationAction userId (Moderation.Action_to_string action) reason)
              (dateNow env (length (trace w))) (storage w) Hnum) as (_ & H2 & H3 & _).
  destruct (Storage.createModerationAction _ _ (storage w)) as [a st'] eqn:E.
  cbn [fst snd storage set_storage trace] in *. auto.
Qed.

Lemma X17_moderateUser_witness :
  let out := Moderation.moderateUser "u1" Moderation.ban "spam" Sample.quiet Sample.world in
  fst out = Ok true /\ trace (snd out) = [].
Proof.
  destruct (X17_moderateUser_only_logs "u1" "spam" Moderation.ban Sample.quiet Sample.world)
    as (H1 & H2 & _).
  - intros id r H. vm_compute in H. discriminate.
  - split; [exact H1|exact H2].
Defined.

(** ** Command lines *)

Section CommandLines.

Lemma space_is_space (c : ascii) : Ascii.eqb c " "%char = true -> JS.is_space c = true.
Proof. intros ->%Ascii.eqb_eq. reflexivity. Qed.

Lemma trimStart_blank (s : string) : JS.blank s = true -> JSText.trimStart s = "".
Proof.
  induction s as [|c s IH]; simpl; [reflexivity|].
  intros [-> Hs]%andb_true_iff. auto.
Qed.

Lemma trimStart_nonblank (s : string) :
  JS.blank s = false ->
  exists c r, JSText.trimStart s = String c r /\ JS.is_space c = false.
Proof.
  induction s as [|c s IH]; simpl; [discriminate|].
  destruct (JS.is_space c) eqn:Hc; simpl; eauto.
Qed.

Lemma trimEnd_head (c : ascii) (r : string) :
  JS.is_space c = false -> JSText.trimEnd (String c r) = String c (JSText.trimEnd r).
Proof. intros Hc. simpl. destruct (JSText.trimEnd r); [now rewrite Hc|reflexivity]. Qed.

Lemma trimEnd_clean (s : string) : JSText.endsWithSpace (JSText.trimEnd s) = false.
Proof.
  induction s as [|c s IH]; simpl; [reflexivity|].
  destruct (JSText.trimEnd s) as [|d t].
  - destruct (JS.is_space c) eqn:Hc; simpl; [reflexivity|].
    destruct (Ascii.eqb c " ") eqn:E; [|reflexivity].
    apply space_is_space in E. congruence.
  - exact IH.
Qed.

Lemma spaceFree_snoc (cur : string) (c : ascii) :
  JSText.spaceFree cur = true -> Ascii.eqb c " "%char = false ->
  JSText.spaceFree (cur ++ String c "") = true.
Proof.
  intros Hcur Hc. induction cur as [|d cur IH]; simpl in *.
  - now rewrite Hc.
  - apply andb_true_iff in Hcur as [-> Hcur]. simpl. auto.
Qed.

Lemma splitRuns_spaceFree (s cur : string) (inRun : bool) :
  JSText.spaceFree cur = true ->
  Forall (fun t => JSText.spaceFree t = true) (JSText.splitRuns s cur inRun).
Proof.
  revert cur inRun. induction s as [|c s IH]; intros cur inRun Hcur; simpl.
  - repeat constructor. exact Hcur.
  - destruct (Ascii.eqb c " ") eqn:Hc.
    + destruct inRun; [auto|]. constructor; auto.
    + apply IH. now apply spaceFree_snoc.
Qed.

Lemma snoc_nonempty (cur : string) (c : ascii) : (cur ++ String c "")%string <> "".
Proof. destruct cur; discriminate. Qed.

Lemma splitRuns_nonempty (s cur : string) (inRun : bool) :
  JSText.endsWithSpace s = false ->
  cur <> "" \/ (s <> "" /\ (inRun = true \/ JSText.startsWithSpace s = false)) ->
  Forall (fun t => t <> "") (JSText.splitRuns s cur inRun).
Proof.
  revert cur inRun. induction s as [|c s IH]; intros cur inRun Hend Hinv; simpl.
  - repeat constructor. destruct Hinv as [H|[H _]]; [exact H|contradiction].
  - assert (JSText.endsWithSpace s = false) as Hend'.
    { simpl in Hend. destruct s; [reflexivity|exact Hend]. }
    destruct (Ascii.eqb c " ") eqn:Hc.
    + assert (s <> "") as Hs.
      { intros ->. simpl in Hend. congruence. }
      destruct inRun.
      * apply IH; auto.
      * constructor; [|apply IH; auto].
        destruct Hinv as [H|[_ [H|H]]]; [exact H|discriminate|].
        simpl in H. congruence.
    + apply IH; [exact Hend'|]. left. apply snoc_nonempty.
Qed.

End CommandLines.

(** X18. The pieces of a command line: when the text after the prefix is
    blank there is a single empty piece, and the command handler returns at
    once; otherwise no piece is empty and no piece holds a space, however
    many spaces separate or surround the words. *)
Theorem X18_command_line_pieces (message : Message) (prefix : string) :
  let body := JSText.sliceFrom (String.length prefix) (content message) in
  if JS.blank body then
    commandLine message prefix = [""] /\
    forall commands env w, handleCommand commands message prefix env w = (Ok tt, w)
  else
    Forall (fun piece => piece <> "" /\ JSText.spaceFree piece = true)
           (commandLine message prefix).
Proof.
  cbv zeta. unfold commandLine, JSText.trim.
  destruct (JS.blank _) eqn:Hb.
  - assert (JSText.splitSpaces
              (JSText.trimEnd (JSText.trimStart
                 (JSText.sliceFrom (String.length prefix) (content message)))) = [""]) as E.
    { now rewrite (trimStart_blank _ Hb). }
    split; [exact E|]. intros commands env w.
    unfold handleCommand, commandLine, JSText.trim. now rewrite E.
  - destruct (trimStart_nonblank _ Hb) as (c & r & -> & Hc).
    rewrite (trimEnd_head _ _ Hc).
    pose proof (trimEnd_clean (String c r)) as Hend. rewrite (trimEnd_head _ _ Hc) in Hend.
    assert (Ascii.eqb c " " = false) as Hsp.
    { destruct (Ascii.eqb c " ") eqn:E; [|reflexivity]. apply space_is_space in E. congruence. }
    apply Forall_and. split.
    + apply splitRuns_nonempty; [exact Hend|]. right. split; [discriminate|]. right. exact Hsp.
    + now apply splitRuns_spaceFree.
Qed.

(** ** The handler as a whole *)

Section HandlerFacts.

Implicit Types (env : Env) (w : World) (message : Message).

(** The last resort of the handler always resolves. *)
Lemma report_resolves (line text line' : string) env w :
  exists w',
    (await _ <- consoleLine line;
     try_catch (discord (Reply text)) (fun _ => consoleLine line')) env w = (Ok tt, w') /\
    trace w' = trace w ++ [Reply text].
Proof.
  cbv beta iota zeta delta [bind try_catch discord consoleLine].
  cbn [trace say]. destruct (gateway env (length (trace w))); eexists; split; reflexivity.
Qed.

Lemma try_catch_resolves {A : Type} (m : M A) (h : string -> M A) env w :
  (forall e w1, exists a w', h e env w1 = (Ok a, w')) ->
  exists a w', try_catch m h env w = (Ok a, w').
Proof.
  intros Hh. unfold try_catch. destruct (m env w) as [[a|e] w1]; eauto.
Qed.

Lemma onMessageCreate_skip (handleCommand : Message -> string -> M unit) message env w :
  negb (isReady w) || author_bot message = true ->
  onMessageCreate handleCommand message env w = (Ok tt, w).
Proof.
  intros H. unfold onMessageCreate. unfold bind at 1. unfold getWorld at 1.
  cbv beta iota. now rewrite H.
Qed.

Lemma onMessageCreate_resolves (handleCommand : Message -> string -> M unit) message env w :
  exists w', onMessageCreate handleCommand message env w = (Ok tt, w').
Proof.
  destruct (negb (isReady w) || author_bot message) eqn:Hskip.
  - rewrite onMessageCreate_skip by exact Hskip. eauto.
  - unfold onMessageCreate. unfold bind at 1. unfold getWorld at 1.
    cbv beta iota. rewrite Hskip.
    match goal with
    | |- context [try_catch ?m ?h env w] =>
        destruct (try_catch_resolves m h env w) as ([] & w' & R)
    end; [|eauto].
    intros e w1.
    destruct (report_resolves "Error processing message:" REQUEST_ERROR
                "Failed to send error message:" env w1) as (w' & R & _).
    eauto.
Qed.

End HandlerFacts.

(** X19. The message handler never rejects, whatever the command handler it
    is given does: every failure of a route is caught. For a bot author, or
    while the bot is not ready, it does nothing at all, not even the user
    bookkeeping. *)
Theorem X19_handler_never_rejects
    (handleCommand : Message -> string -> M unit)
    (message : Message) (env : Env) (w : World) :
  let out := onMessageCreate handleCommand message env w in
  fst out = Ok tt /\
  (isReady w = false \/ author_bot message = true -> snd out = w).
Proof.
  cbv zeta. split.
  - destruct (onMessageCreate_resolves handleCommand message env w) as (w' & R).
    now rewrite R.
  - intros H. rewrite onMessageCreate_skip; [reflexivity|].
    destruct H as [->| ->]; [reflexivity|apply orb_true_r].
Qed.

(** X20. A message that starts with the prefix and names no registered
    command is answered by the natural-language responder, whether or not it
    mentions the bot or is a direct message, and without being moderated: no
    call to the scorer is made, even with auto-moderation on. *)
Theorem X20_unknown_command_is_answered_unmoderated
    (commands : string -> option (Message -> list string -> M unit))
    (message : Message) (env : Env) (w : World) :
  isReady w = true -> author_bot message = false ->
  hasMessageContentPrivilege w = true ->
  JS.startsWith (content message) PREFIX = true ->
  let name := from_option JS.toLowerCase "" (head (commandLine message PREFIX)) in
  name <> "" -> commands name = None ->
  let w1 := snd (ensureUserExists message env w) in
  let out := onMessageCreate (handleCommand commands) message env w in
  out = NLP.processNaturalLanguage message env w1 /\
  List.filter isScorerCall (newEvents w (snd out)) = [] /\
  List.filter isReply (newEvents w (snd out)) =
    Reply (replyText message env w1)
      :: match gateway env (replyPosition w1) with
         | None => []
         | Some _ => [Reply NLP.APOLOGY]
         end.
Proof.
  intros Hready Hbot Hpriv Hprefix name Hname Hnone. cbv zeta.
  destruct (ensureUserExists_run message env w) as (st & R & _).
  rewrite R. cbn [snd].
  destruct (processNaturalLanguage_run message env (set_storage st w))
    as (w' & Rn & _ & _ & _ & T & _).
  assert (onMessageCreate (handleCommand commands) message env w =
          NLP.processNaturalLanguage message env (set_storage st w)) as E.
  { unfold onMessageCreate.
    cbv beta iota zeta delta [bind getWorld try_catch].
    rewrite Hready, Hbot. cbn [negb orb]. cbv beta iota. rewrite R. cbv beta iota.
    cbn [hasMessageContentPrivilege set_storage]. rewrite Hpriv, Hprefix.
    unfold handleCommand. fold name. rewrite Hnone.
    destruct name as [|c r]; [contradiction|]. cbn [JS.truthy negb].
    rewrite Rn. reflexivity. }
  rewrite E, Rn. cbn [snd]. split; [reflexivity|].
  unfold newEvents. cbn [trace set_storage] in T. rewrite T, drop_app_length.
  unfold requestFor.
  split; destruct (useOpenAI (set_storage st w));
    destruct (gateway env (replyPosition (set_storage st w))); reflexivity.
Qed.

(** X21. When the [execute] function of a registered command rejects, the
    user is told so with the command-error text; if that reply is rejected as
    well, the handler falls back to its general error text, once. The handler
    itself still resolves. *)
Theorem X21_failed_command_is_reported
    (commands : string -> option (Message -> list string -> M unit))
    (execute : Message -> list string -> M unit)
    (message : Message) (env : Env) (w w2 : World) (e : string) :
  isReady w = true -> author_bot message = false ->
  hasMessageContentPrivilege w = true ->
  JS.startsWith (content message) PREFIX = true ->
  let name := from_option JS.toLowerCase "" (head (commandLine message PREFIX)) in
  let args := tail (commandLine message PREFIX) in
  name <> "" -> commands name = Some execute ->
  execute message args env (snd (ensureUserExists message env w)) = (Throw e, w2) ->
  let out := onMessageCreate (handleCommand commands) message env w in
  fst out = Ok tt /\
  trace (snd out) =
    trace w2 ++ Reply COMMAND_ERROR
      :: match gateway env (length (trace w2)) with
         | None => []
         | Some _ => [Reply REQUEST_ERROR]
         end.
Proof.
  intros Hready Hbot Hpriv Hprefix name args Hname Hsome Hfail. cbv zeta.
  destruct (ensureUserExists_run message env w) as (st & R & _).
  rewrite R in Hfail. cbn [snd] in Hfail.
  unfold onMessageCreate.
  cbv beta iota zeta delta [bind getWorld try_catch].
  rewrite Hready, Hbot. cbn [negb orb]. cbv beta iota. rewrite R. cbv beta iota.
  cbn [hasMessageContentPrivilege set_storage]. rewrite Hpriv, Hprefix.
  unfold handleCommand. fold name. fold args. rewrite Hsome.
  destruct name as [|c r] eqn:En; [contradiction|]. cbn [JS.truthy negb].
  cbv beta iota zeta delta [try_catch bind consoleLine discord].
  rewrite Hfail. cbn [trace say].
  destruct (gateway env (length (trace w2))).
  - cbn [trace emit say]. rewrite length_app. cbn [length].
    destruct (gateway env _); cbn [fst snd trace emit say]; rewrite <- app_assoc; auto.
  - cbn [fst snd trace emit say]. auto.
Qed.

(** X22. User bookkeeping: the first message of an author stores a record
    with the author's id and current name; a later message never changes a
    stored record, even when the author's name has changed. No call is
    made, and the records of other users, the conversations, the settings and
    the moderation log stay as they are. *)
Theorem X22_user_record_is_written_once (message : Message) (env : Env) (w : World) :
  let out := ensureUserExists message env w in
  let id := author_id message in
  fst out = Ok tt /\
  trace (snd out) = trace w /\
  Storage.getDiscordUser id (storage (snd out)) =
    match Storage.getDiscordUser id (storage w) with
    | Some known => Some known
    | None => Some (mkDiscordUser id (author_username message)
                      (dateNow env (length (trace w))))
    end /\
  (forall other, other <> id ->
     Storage.getDiscordUser other (storage (snd out)) =
     Storage.getDiscordUser other (storage w)) /\
  conversations (storage (snd out)) = conversations (storage w) /\
  botSettings (storage (snd out)) = botSettings (storage w) /\
  moderationActions (storage (snd out)) = moderationActions (storage w).
Proof.
  cbv zeta.
  cbv beta iota zeta delta [ensureUserExists bind readStorage newDate onStorage ret].
  destruct (Storage.getDiscordUser (author_id message) (storage w)) as [known|] eqn:Hk.
  - cbn [fst snd]. rewrite Hk. auto 10.
  - unfold Storage.createDiscordUser, Storage.getDiscordUser. cbn.
    split; [reflexivity|]. split; [reflexivity|]. split; [apply lookup_insert_eq|].
    split; [|auto]. intros other Hne. apply lookup_insert_ne. congruence.
Qed.

Lemma X20_unknown_command_witness :
  let out := onMessageCreate (handleCommand Scenario.registry) Scenario.dance
               Sample.quiet Sample.world in
  from_option autoModeration false (botSettings (storage Sample.world)) = true /\
  List.filter isScorerCall (newEvents Sample.world (snd out)) = [] /\
  List.filter isReply (newEvents Sample.world (snd out)) = [Reply "Hi!"].
Proof.
  split; [reflexivity|].
  refine (proj2 (X20_unknown_command_is_answered_unmoderated Scenario.registry Scenario.dance
                   Sample.quiet Sample.world eq_refl eq_refl eq_refl eq_refl _ eq_refl)).
  vm_compute. discriminate.
Defined.

Lemma X21_failed_command_witness :
  let out := onMessageCreate (handleCommand Scenario.registry) Scenario.boom
               Sample.hostile Sample.world in
  fst out = Ok tt /\
  trace (snd out) = [Reply COMMAND_ERROR; Reply REQUEST_ERROR].
Proof.
  refine (X21_failed_command_is_reported Scenario.registry (fun _ _ => throw "Error: boom")
            Scenario.boom Sample.hostile Sample.world
            (snd (ensureUserExists Scenario.boom Sample.hostile Sample.world))
            "Error: boom" eq_refl eq_refl eq_refl eq_refl _ eq_refl eq_refl).
  vm_compute. discriminate.
Defined.

(** ** Order of the stored turns *)

Section OrderFacts.

Lemma limited_is_drop (cs : Z) (l : list ContextMessage) : exists k, limited cs l = drop k l.
Proof.
  unfold limited, JS.slice. destruct (_ >? _); [eauto|]. now exists 0%nat.
Qed.

End OrderFacts.

(** X23. Appends and resizes only ever drop the oldest turns: for every
    context size, also 0 or a negative one, the window of the target after a
    mutation is a tail of the old window, extended by the new turn when the
    mutation is an append that took effect. Stored turns are never reordered
    or altered. *)
Theorem X23_mutations_only_drop_oldest_turns (st : MemStorage) (m : Mutation) (now : Z) :
  Storage.wf st ->
  let st' := mutate m now st in
  exists k,
    Context.window (target m) st' = drop k (Context.window (target m) st) \/
    Context.window (target m) st' = drop k (Context.window (target m) st ++ appended m now).
Proof.
  intros Hwf. cbv zeta. destruct m as [message|u text|u n]; simpl.
  - destruct (botSettings st) as [bs|] eqn:Hbs.
    + destruct (contextAwareness bs) eqn:Hca.
      * destruct (addUserMessage_spec message now st bs Hwf Hbs Hca) as (_ & _ & c & A & C).
        rewrite (window_active _ _ _ A), C.
        destruct (limited_is_drop (Context.sizeInEffect st)
                    (Context.window (author_id message) st
                       ++ [mkContextMessage user (content message) now])) as [k ->].
        exists k. now right.
      * exists 0%nat. left.
        unfold Context.addUserMessage, Storage.getBotSettings. now rewrite Hbs, Hca.
    + exists 0%nat. left.
      unfold Context.addUserMessage, Storage.getBotSettings. now rewrite Hbs.
  - destruct (botSettings st) as [bs|] eqn:Hbs.
    + destruct (contextAwareness bs) eqn:Hca.
      * destruct (Storage.getActiveConversationByUserId u st) as [c|] eqn:Hact.
        -- destruct (addBotMessage_active u text now st bs c Hwf Hbs Hca Hact)
             as (_ & _ & _ & A).
           rewrite (window_active _ _ _ A). cbn [withContext conv_context].
           destruct (limited_is_drop (Context.sizeInEffect st)
                       (Context.window u st ++ [mkContextMessage assistant text now]))
             as [k ->].
           exists k. now right.
        -- exists 0%nat. left.
           now rewrite (addBotMessage_inactive u text now st bs Hbs Hca Hact).
      * exists 0%nat. left.
        unfold Context.addBotMessage, Storage.getBotSettings. now rewrite Hbs, Hca.
    + exists 0%nat. left.
      unfold Context.addBotMessage, Storage.getBotSettings. now rewrite Hbs.
  - destruct (updateContext_spec u n now st Hwf) as (_ & _ & ->).
    destruct (limited_is_drop n (Context.window u st)) as [k ->]. exists k. now left.
Qed.

Lemma X23_mutations_witness :
  exists k,
    Context.window "u1" (mutate (Resize "u1" (-1)) 9 Scenario.smallWindow) =
      drop k (Context.window "u1" Scenario.smallWindow) \/
    Context.window "u1" (mutate (Resize "u1" (-1)) 9 Scenario.smallWindow) =
      drop k (Context.window "u1" Scenario.smallWindow ++ []).
Proof.
  apply (X23_mutations_only_drop_oldest_turns Scenario.smallWindow (Resize "u1" (-1)) 9).
  apply run_wf. split; simpl; constructor.
Defined.

(** X24. The standalone operations leave the store alone: [generateResponse]
    and [analyzeSentiment] do not change the conversations, the settings, the
    users or the moderation log in any mode, and make at most one call. *)
Theorem X24_standalone_operations_keep_the_store
    (prompt : string) (env : Env) (w : World) :
  let g := snd (NLP.generateResponse prompt env w) in
  let a := snd (NLP.analyzeSentiment prompt env w) in
  storage g = storage w /\ storage a = storage w /\
  (length (newEvents w g) <= 1)%nat /\ (length (newEvents w a) <= 1)%nat.
Proof.
  cbv zeta. rewrite generateResponse_run.
  destruct (analyzeSentiment_run prompt env w) as (s & ->).
  unfold newEvents.
  destruct (useOpenAI w); cbv zeta.
  - destruct (completions env (length (trace w))) as [c|e];
      [|destruct (NLP.isApiLimit e)];
      (destruct (sentiments env (length (trace w))) as [c'|e'];
       [|destruct (NLP.isApiLimit e')]);
      cbn [snd storage trace emit say set_useOpenAI];
      rewrite !drop_app_length; cbn; auto.
  - cbn [snd storage trace say]. rewrite drop_all. cbn. auto with arith.
Qed.
